(** * Geez Bingo clients: card model, notifications and socket context

    A shallow embedding of the Telegram bot (two variants of
    [GeezBingoBot]) and of the React web client ([SocketContext],
    [GameRoom]), with the bingo card model the clients render.

    JavaScript strings are [string] (a sequence of bytes, UTF-8 for the
    emoji of the message templates); arrays are [list]; the [Map] of user
    sessions is a [gmap]; [undefined] fields are [option]; the truthiness
    of a flag such as [cell.called] is a [bool]. *)

From Stdlib Require Import ZArith String Ascii List Bool Lia DecimalString.
From Stdlib Require Import DecimalPos DecimalZ.
From stdpp Require Import base option list gmap strings.

Open Scope string_scope.

(** ** Cards and cells *)

(** A cell of a card as the clients read it: [cell.letter], [cell.number]
    ([None] when the field is absent), [cell.free] and [cell.called]. *)
Record Cell := mkCell {
  letter : string;
  number : option Z;
  free : bool;
  called : bool
}.

(** A card: [card.number], the grid [card.numbers] (rows of cells) and
    [card.gameId]. *)
Record Card := mkCard {
  card_number : Z;
  numbers : list (list Cell);
  gameId : string
}.

(** [card.numbers[row][col]]; [None] where JavaScript finds [undefined]
    (and throws when the missing value is dereferenced). *)
Definition getCell (card : Card) (row col : nat) : option Cell :=
  numbers card !! row ≫= (.!! col).

(** The flag [called] of the cell at a position; a missing cell is not
    called. *)
Definition calledAt (card : Card) (row col : nat) : bool :=
  match getCell card row col with
  | Some cell => called cell
  | None => false
  end.

(** A 5×5 grid. *)
Definition is5x5 (card : Card) : Prop :=
  length (numbers card) = 5 ∧ Forall (λ row, length row = 5) (numbers card).

(** [const columns = ['B', 'I', 'N', 'G', 'O']]. *)
Definition columns : list string := ["B"; "I"; "N"; "G"; "O"].

(** ** Rendering numbers *)

(** [n.toString()] for an integer. *)
Definition toString (n : Z) : string := NilZero.string_of_int (Z.to_int n).

(** ['0'.repeat(k)]. *)
Fixpoint zeros (k : nat) : string :=
  match k with
  | O => ""
  | S k' => "0" +:+ zeros k'
  end.

(** [s.padStart(width, '0')]. *)
Definition padStart (width : nat) (s : string) : string :=
  zeros (width - String.length s) +:+ s.

(** [s.repeat(k)]. *)
Fixpoint repeat_string (s : string) (k : nat) : string :=
  match k with
  | O => ""
  | S k' => s +:+ repeat_string s k'
  end.

(** [parts.join(sep)]. *)
Fixpoint join (sep : string) (parts : list string) : string :=
  match parts with
  | [] => ""
  | [p] => p
  | p :: rest => p +:+ sep +:+ join sep rest
  end.

(** The line feed of the templates. *)
Definition nl : string := String (ascii_of_nat 10) "".

(** ** formatCardAsText (first bot variant)

    The result is [None] when the JavaScript throws a [TypeError]: a
    missing row or cell, or a cell that is not free and has no number. *)

Definition formatCell (cell : Cell) : option string :=
  if free cell then Some " FREE "
  else
    n ← number cell;
    Some (" " +:+ letter cell +:+ padStart 2 (toString n) +:+ " ").

Definition formatRow (card : Card) (row : nat) : option string :=
  foldl (λ acc col,
           rowText ← acc;
           s ← getCell card row col ≫= formatCell;
           Some (rowText +:+ s))
        (Some (toString (Z.of_nat (row + 1)) +:+ " |"))
        (seq 0 5).

Definition formatCardAsText (card : Card) : option string :=
  foldl (λ acc row,
           text ← acc;
           rowText ← formatRow card row;
           Some (text +:+ rowText +:+ nl))
        (Some ("     " +:+ join "    " columns +:+ nl
               +:+ "   " +:+ repeat_string "─────" 5 +:+ nl))
        (seq 0 5).

(** ** Counting the marked cells

    [card.numbers.flat().filter(n => n.called).length], as computed by
    [showUserCards] in the bot and by the card statistics of [GameRoom]. *)
Definition markedCount (card : Card) : nat :=
  length (List.filter called (concat (numbers card))).

(** The positions of a 5×5 grid, row-major. *)
Definition positions : list (nat * nat) :=
  r ← seq 0 5; c ← seq 0 5; [(r, c)].

(** ** The card model of the specification *)

Section CardModel.

(** The per-column ranges come from the backend and are not part of the
    clients; the number drawn for a cell is a parameter. *)
Context {ColumnRanges : Type}.
Variable drawNumber : Z → ColumnRanges → nat → nat → Z.

(** Modelled from the spec: [buildCard] is not in the clients' sources.
    Five columns of five cells; the cell of the middle row in the centre
    column is FREE and pre-marked, every other cell carries a number of
    its column's range and is not yet called. *)
Definition buildCell (n : Z) (columnRanges : ColumnRanges) (row col : nat) : Cell :=
  if (row =? 2)%nat && (col =? 2)%nat
  then mkCell (nth col columns "") None true true
  else mkCell (nth col columns "") (Some (drawNumber n columnRanges row col)) false false.

(** Modelled from the spec: [buildCard(number, columnRanges)], the grid
    in row-major order. *)
Definition buildCard (n : Z) (columnRanges : ColumnRanges) (game : string) : Card :=
  mkCard n
         (map (λ row, map (λ col, buildCell n columnRanges row col) (seq 0 5)) (seq 0 5))
         game.

End CardModel.

(** Modelled from the spec: the match of [applyCalledNumber], which is
    not in the clients' sources: a cell that is not free and has the
    letter and the number of the call. *)
Definition matchesCall (l : string) (n : Z) (cell : Cell) : bool :=
  negb (free cell) && bool_decide (letter cell = l) && bool_decide (number cell = Some n).

(** Modelled from the spec: a matching cell gets [called = true]. *)
Definition markCell (l : string) (n : Z) (cell : Cell) : Cell :=
  if matchesCall l n cell
  then mkCell (letter cell) (number cell) (free cell) true
  else cell.

(** Modelled from the spec: [applyCalledNumber(card, letter, number)]
    scans all cells of the grid. *)
Definition applyCalledNumber (card : Card) (l : string) (n : Z) : Card :=
  mkCard (card_number card) (map (map (markCell l n)) (numbers card)) (gameId card).

(** Modelled from the spec: the win detector is not in the clients'
    sources. Patterns are checked in a fixed order: the five rows, the
    five columns, then the two diagonals; the first complete one is
    reported. *)
Inductive Pattern :=
  | Row (r : nat)
  | Column (c : nat)
  | DiagonalDown
  | DiagonalUp.

(** Modelled from the spec: the five cells a pattern covers. *)
Definition patternCells (p : Pattern) : list (nat * nat) :=
  match p with
  | Row r => map (λ c, (r, c)) (seq 0 5)
  | Column c => map (λ r, (r, c)) (seq 0 5)
  | DiagonalDown => map (λ i, (i, i)) (seq 0 5)
  | DiagonalUp => map (λ i, (i, 4 - i)) (seq 0 5)
  end.

(** Modelled from the spec: the order in which patterns are checked. *)
Definition patterns : list Pattern :=
  map Row (seq 0 5) ++ map Column (seq 0 5) ++ [DiagonalDown; DiagonalUp].

(** Modelled from the spec: a pattern is complete when every cell it
    covers is called. *)
Definition complete (card : Card) (p : Pattern) : bool :=
  forallb (λ rc, calledAt card rc.1 rc.2) (patternCells p).

(** Modelled from the spec: the first complete pattern, if any. *)
Definition detectWin (card : Card) : option Pattern :=
  List.find (complete card) patterns.

(** Modelled from the spec: whether the detector reports a win. *)
Definition wins (card : Card) : bool :=
  match detectWin card with
  | Some _ => true
  | None => false
  end.

(** ** JavaScript values and string functions *)

Module Js.

(** How a JavaScript number is printed is outside the clients: a number
    type comes with its template rendering [`${n}`], [n.toFixed(k)] and
    its truthiness (neither zero nor NaN). *)
Class JsNumber (Num : Type) := {
  ofZ : Z → Num;
  showNum : Num → string;
  toFixed : Num → nat → string;
  truthy : Num → bool
}.

(** The integers as numbers: [7.toFixed(2)] is [7.00]. *)
#[global] Instance JsNumber_Z : JsNumber Z := {
  ofZ := id;
  showNum := toString;
  toFixed := λ n k, match k with
                    | O => toString n
                    | _ => toString n +:+ "." +:+ zeros k
                    end;
  truthy := λ n, negb (n =? 0)%Z
}.

(** The values a callback can hand to [buyCard]: the result of
    [parseInt] (an integer or NaN), a string, [null] or [undefined]. *)
Inductive JsVal :=
  | JsUndefined
  | JsNull
  | JsNaN
  | JsInt (z : Z)
  | JsStr (s : string).

#[global] Instance JsVal_eq_dec : EqDecision JsVal.
Proof. solve_decision. Defined.

(** [`${v}`] for an optional field: a missing one prints [undefined]. *)
Definition showOpt {A} (show : A → string) (o : option A) : string :=
  match o with
  | Some a => show a
  | None => "undefined"
  end.

(** [`${n || d}`] for an optional number. *)
Definition showOr `{JsNumber Num} (o : option Num) (d : string) : string :=
  match o with
  | Some n => if truthy n then showNum n else d
  | None => d
  end.

(** [s.startsWith(p)]. *)
Definition startsWith (s p : string) : bool := String.prefix p s.

(** [s.slice(0, k)]. *)
Definition slice0 (k : nat) (s : string) : string := substring 0 k s.

(** [s] without its first [k] characters. *)
Fixpoint drop_string (k : nat) (s : string) : string :=
  match k, s with
  | O, _ => s
  | S k', String _ s' => drop_string k' s'
  | S _, EmptyString => ""
  end.

(** [s.replace(pat, rep)] with a string pattern: the first occurrence. *)
Fixpoint replace (pat rep s : string) : string :=
  if String.prefix pat s then rep +:+ drop_string (String.length pat) s
  else match s with
       | EmptyString => ""
       | String c s' => String c (replace pat rep s')
       end.

(** [s.split(sep)] for a separator of one character. *)
Fixpoint split (sep : ascii) (s : string) : list string :=
  match s with
  | EmptyString => [""]
  | String c s' =>
      if Ascii.eqb c sep then "" :: split sep s'
      else match split sep s' with
           | h :: t => String c h :: t
           | [] => [String c ""]
           end
  end.

(** [s.toUpperCase()] on the ASCII letters. *)
Definition upper_ascii (c : ascii) : ascii :=
  let n := nat_of_ascii c in
  if (97 <=? n)%nat && (n <=? 122)%nat then ascii_of_nat (n - 32) else c.

Fixpoint toUpperCase (s : string) : string :=
  match s with
  | EmptyString => ""
  | String c s' => String (upper_ascii c) (toUpperCase s')
  end.

(** *** parseInt

    [parseInt(s)] without a radix: leading white space is skipped, a
    sign is read, a prefix [0x] or [0X] selects base 16, and the longest
    run of digits is converted; with no digit the result is NaN. (ASCII
    white space only; results are exact integers.) *)
Definition is_space (c : ascii) : bool :=
  let n := nat_of_ascii c in
  (n =? 32)%nat || ((9 <=? n)%nat && (n <=? 13)%nat).

Fixpoint skip_spaces (s : string) : string :=
  match s with
  | String c s' => if is_space c then skip_spaces s' else s
  | EmptyString => ""
  end.

Definition digit_value (radix : Z) (c : ascii) : option Z :=
  let n := Z.of_nat (nat_of_ascii c) in
  let v := if (48 <=? n)%Z && (n <=? 57)%Z then Some (n - 48)%Z
           else if (97 <=? n)%Z && (n <=? 122)%Z then Some (n - 87)%Z
           else if (65 <=? n)%Z && (n <=? 90)%Z then Some (n - 55)%Z
           else None in
  match v with
  | Some d => if (d <? radix)%Z then Some d else None
  | None => None
  end.

(** The digits read so far are [acc]; [seen] records that there is one. *)
Fixpoint read_digits (radix : Z) (s : string) (acc : Z) (seen : bool) : option Z :=
  match s with
  | String c s' =>
      match digit_value radix c with
      | Some d => read_digits radix s' (acc * radix + d)%Z true
      | None => if seen then Some acc else None
      end
  | EmptyString => if seen then Some acc else None
  end.

Definition parseInt_string (s : string) : JsVal :=
  let s1 := skip_spaces s in
  let '(sign, s2) :=
    match s1 with
    | String "-" r => ((-1)%Z, r)
    | String "+" r => (1%Z, r)
    | _ => (1%Z, s1)
    end in
  let '(radix, s3) :=
    match s2 with
    | String "0" (String "x" r) => (16%Z, r)
    | String "0" (String "X" r) => (16%Z, r)
    | _ => (10%Z, s2)
    end in
  match read_digits radix s3 0 false with
  | Some n => JsInt (sign * n)
  | None => JsNaN
  end.

(** [parseInt(x)] where [x] may be [undefined] (a destructured element
    that is not there): the text [undefined] has no digit. *)
Definition parseInt (x : option string) : JsVal :=
  match x with
  | Some s => parseInt_string s
  | None => JsNaN
  end.

End Js.


(** ** Effects of the bot

    A handler talks to Telegram and to the backend. Each such call is an
    [Action] appended to the trace of the [World]; whether it succeeds,
    and with which data, is decided by the world's sequence of replies:
    the k-th call made receives [replies k]. *)

Module Effects.
Import Js.

Inductive ButtonAction :=
  | CallbackData (d : string)
  | Url (u : string)
  | WebApp (u : string).

Record Button := mkButton { text : string; action : ButtonAction }.

(** [reply_markup]: the inline keyboard, a list of rows of buttons. *)
Record Keyboard := mkKeyboard { inline_keyboard : list (list Button) }.

(** [bot.sendMessage(chatId, text, { parse_mode, reply_markup })]; the
    third argument is optional. *)
Record Message := mkMessage {
  chat : Z;
  body : string;
  parse_mode : option string;
  reply_markup : option Keyboard
}.

(** The object posted to the backend's buy-card endpoint. *)
Record BuyCardBody := mkBuyCardBody {
  userId : string;
  cardNumber : JsVal;
  telegramChatId : Z
}.

Inductive Action :=
  | SendMessage (m : Message)
  | AnswerCallbackQuery (id : string)
  | HttpGet (url : string)
  | HttpPost (url : string)
  | HttpPostBuyCard (url : string) (b : BuyCardBody)
  | ApiGetCurrentGame
  | ApiCreateNewGame
  | ConsoleError (label : string)
  | LoggerError (label : string).

Inductive Error :=
  | TypeError
  | RequestError.

(** The result of running a handler: it returns, it throws (the promise
    is rejected), or the recursion budget of the model is used up. *)
Inductive Outcome (A : Type) :=
  | Done (a : A)
  | Thrown (e : Error)
  | OutOfFuel.
Arguments Done {A} a.
Arguments Thrown {A} e.
Arguments OutOfFuel {A}.

Section WithNumbers.
Context {Num : Type} `{JsNumber Num}.

(** [response.data.game] of the first bot variant. *)
Record Game := mkGame {
  game_id : string;
  status : string;
  pot : Num;
  playerCount : option Num;
  availableCards : option Num;
  timeLeft : option Num
}.

(** [response.data]: the fields the handlers read. *)
Record Response := mkResponse {
  game : option Game;
  success : bool;
  card : option Card;
  newBalance : option Num;
  error : option string
}.

Inductive Reply :=
  | Fails
  | Responds (d : Response).

Record World := mkWorld {
  replies : nat → Reply;
  clock : nat;
  trace : list Action
}.

Definition M (A : Type) : Type := World → Outcome A * World.

Definition ret {A} (a : A) : M A := λ w, (Done a, w).

Definition bind {A B} (m : M A) (k : A → M B) : M B :=
  λ w, match m w with
       | (Done a, w') => k a w'
       | (Thrown e, w') => (Thrown e, w')
       | (OutOfFuel, w') => (OutOfFuel, w')
       end.

Definition throw {A} (e : Error) : M A := λ w, (Thrown e, w).

Definition out_of_fuel {A} : M A := λ w, (OutOfFuel, w).

(** [try { body } catch (error) { handler }]. *)
Definition try_catch {A} (body : M A) (handler : Error → M A) : M A :=
  λ w, match body w with
       | (Thrown e, w') => handler e w'
       | r => r
       end.

(** A call that is awaited: recorded, then answered by the next reply. *)
Definition request (a : Action) : M Response :=
  λ w, let w' := mkWorld (replies w) (S (clock w)) (trace w ++ [a]) in
       match replies w (clock w) with
       | Fails => (Thrown RequestError, w')
       | Responds d => (Done d, w')
       end.

(** [console.error] and [logger.error]: recorded, never failing. *)
Definition log (a : Action) : M unit :=
  λ w, (Done (), mkWorld (replies w) (clock w) (trace w ++ [a])).

(** A value that must be there: dereferencing [undefined] throws. *)
Definition defined {A} (o : option A) : M A :=
  match o with
  | Some a => ret a
  | None => throw TypeError
  end.

Definition sendMessage (chatId : Z) (text : string) (mode : option string)
    (markup : option Keyboard) : M unit :=
  bind (request (SendMessage (mkMessage chatId text mode markup))) (λ _, ret ()).

(** A reply without a game, and the backend that never has one: every
    call succeeds, and the current game is always missing. *)
Definition noGame : Response := mkResponse None false None None None.

Definition emptyBackend : World := mkWorld (λ _, Responds noGame) 0 [].

End WithNumbers.

(** The texts of the messages sent, in order. *)
Definition sentBodies (actions : list Action) : list string :=
  omap (λ a, match a with
             | SendMessage m => Some (body m)
             | _ => None
             end) actions.

Arguments Game Num : clear implicits.
Arguments Response Num : clear implicits.
Arguments Reply Num : clear implicits.
Arguments World Num : clear implicits.
Arguments M Num A : clear implicits.

End Effects.

Notation "x <~ m ;; k" := (Effects.bind m (λ x, k))
  (at level 100, m at next level, right associativity, only parsing).
Notation "m ;;; k" := (Effects.bind m (λ _, k))
  (at level 100, right associativity, only parsing).

(** ** The first bot variant (src/unnamed/part_000)

    [GeezBingoBot] talking to the backend through axios. *)

Module BotPart000.
Import Js Effects.

(** The payload of a game notification: the fields the templates read. *)
Record EventData (Num : Type) := mkEventData {
  ev_letter : option string;
  ev_number : option Num;
  ev_currentCalls : option Num;
  ev_username : option string;
  ev_totalPlayers : option Num;
  ev_cardNumber : option Num;
  ev_pot : option Num;
  ev_userId : option string;
  ev_amount : option Num
}.
Arguments mkEventData {Num}.
Arguments ev_letter {Num} _.
Arguments ev_number {Num} _.
Arguments ev_currentCalls {Num} _.
Arguments ev_username {Num} _.
Arguments ev_totalPlayers {Num} _.
Arguments ev_cardNumber {Num} _.
Arguments ev_pot {Num} _.
Arguments ev_userId {Num} _.
Arguments ev_amount {Num} _.

(** A callback query of Telegram: [callbackQuery.id],
    [callbackQuery.message.chat.id] (there is no message when the button
    belongs to an inline message) and [callbackQuery.data]. *)
Record CallbackQuery := mkCallbackQuery {
  cq_id : string;
  cq_chat : option Z;
  cq_data : option string
}.

Section Bot.
Context {Num : Type} `{JsNumber Num}.
Variable backendUrl : string.

(** [getUserId]: the Telegram chat id is the user id. *)
Definition getUserId (chatId : Z) : string := "telegram_" +:+ toString chatId.

(** *** handlePlayCommand *)

Definition gameMessage (g : Game Num) : string :=
  nl +:+ "🎮 *Current Game* \#" +:+ slice0 8 (game_id g) +:+ nl
  +:+ nl
  +:+ "*Status*: " +:+ toUpperCase (status g) +:+ nl
  +:+ "*Pot*: `$" +:+ showNum (pot g) +:+ "\." +:+ nl
  +:+ "*Players*: " +:+ showOr (playerCount g) "0" +:+ nl
  +:+ "*Cards Available*: " +:+ showOr (availableCards g) "400" +:+ nl
  +:+ nl
  +:+ "*Time Left*: " +:+ showOr (timeLeft g) "30" +:+ " seconds" +:+ nl
  +:+ "                ".

Definition gameKeyboard (g : Game Num) : Keyboard :=
  mkKeyboard
    ((if bool_decide (status g = "waiting") then
        [[mkButton "🎯 Select Cards" (CallbackData ("select_card_page_" +:+ game_id g +:+ "_1"));
          mkButton "👁️ View Game" (CallbackData ("join_game_" +:+ game_id g))]]
      else if bool_decide (status g = "active") then
        [[mkButton "📞 View Numbers" (CallbackData ("join_game_" +:+ game_id g));
          mkButton "🏆 Claim Bingo" (CallbackData "claim_bingo")]]
      else [])
     ++ [[mkButton "🌐 Open Web App" (CallbackData "view_web_app")]]).

(** The handler calls itself after creating a game; [fuel] bounds the
    number of nested invocations the model follows. *)
Fixpoint handlePlayCommand (fuel : nat) (chatId : Z) : M Num unit :=
  match fuel with
  | O => out_of_fuel
  | S fuel' =>
      try_catch
        (response <~ request (HttpGet (backendUrl +:+ "/api/games/current"));;
         match game response with
         | Some g =>
             sendMessage chatId (gameMessage g) (Some "MarkdownV2") (Some (gameKeyboard g))
         | None =>
             sendMessage chatId "📭 No active games. Starting a new game..." None None;;;
             _newGame <~ request (HttpPost (backendUrl +:+ "/api/games"));;
             handlePlayCommand fuel' chatId
         end)
        (λ _,
           log (ConsoleError "Play command error:");;;
           sendMessage chatId "❌ Error loading game. Please try again." None None)
  end.

(** One round of the handler when there is no game: the request for
    the current game, the message, the creation. *)
Definition emptyRound (chatId : Z) : list Action :=
  [HttpGet (backendUrl +:+ "/api/games/current");
   SendMessage (mkMessage chatId "📭 No active games. Starting a new game..." None None);
   HttpPost (backendUrl +:+ "/api/games")].

(** *** buyCard *)

Definition purchaseMessage (c : Card) (cardText : string) (response : Response Num) : string :=
  nl +:+ "✅ *Card Purchased* \#" +:+ toString (card_number c) +:+ nl
  +:+ nl
  +:+ "*Cost*: `$10\." +:+ nl
  +:+ "*New Balance*: `$" +:+ showOpt showNum (newBalance response) +:+ "\." +:+ nl
  +:+ nl
  +:+ "*Your Card:*" +:+ nl
  +:+ "```" +:+ nl
  +:+ cardText +:+ nl
  +:+ "```" +:+ nl
  +:+ "                ".

(** The body of the buy-card request. *)
Definition buyCardBody (chatId : Z) (cardNumber : JsVal) : BuyCardBody :=
  mkBuyCardBody (getUserId chatId)
                (if bool_decide (cardNumber = JsStr "random") then JsNull else cardNumber)
                chatId.

(** [gameId] is what the caller destructured; a missing element prints
    as [undefined] in the templates. *)
Definition buyCard (chatId : Z) (gameId : option string) (cardNumber : JsVal) : M Num unit :=
  try_catch
    (response <~ request (HttpPostBuyCard
                            (backendUrl +:+ "/api/games/" +:+ showOpt id gameId +:+ "/buy-card")
                            (buyCardBody chatId cardNumber));;
     if success response then
       c <~ defined (card response);;
       cardText <~ defined (formatCardAsText c);;
       sendMessage chatId (purchaseMessage c cardText response) (Some "MarkdownV2")
         (Some (mkKeyboard
                  [[mkButton "🃏 Buy Another Card"
                      (CallbackData ("select_card_page_" +:+ showOpt id gameId +:+ "_1"))];
                   [mkButton "🎮 View Game"
                      (CallbackData ("join_game_" +:+ showOpt id gameId))]]))
     else
       sendMessage chatId ("❌ " +:+ showOpt id (error response)) None None)
    (λ _,
       log (ConsoleError "Buy card error:");;;
       sendMessage chatId "❌ Error purchasing card. Please check your balance." None None).

(** *** The callback-query handler of setupCallbacks *)

(** The methods the handler dispatches to and that are not followed
    further here. *)
Record Methods := mkMethods {
  showCardSelection : Z → option string → JsVal → M Num unit;
  openWebApp : Z → M Num unit;
  showBalance : Z → M Num unit;
  processDeposit : Z → string → M Num unit;
  claimBingo : Z → M Num unit;
  showMainMenu : Z → M Num unit
}.

(** The chain of tests on [data]. The class has no method [joinGame]:
    calling it throws a [TypeError]. *)
Definition dispatch (m : Methods) (chatId : Z) (data : string) : M Num unit :=
  if startsWith data "join_game_" then
    throw TypeError
  else if startsWith data "buy_card_" then
    let parts := split "_" data in
    buyCard chatId (parts !! 1%nat) (parseInt (parts !! 2%nat))
  else if startsWith data "select_card_page_" then
    let parts := drop 2 (split "_" data) in
    showCardSelection m chatId (parts !! 1%nat) (parseInt (parts !! 2%nat))
  else if bool_decide (data = "view_web_app") then openWebApp m chatId
  else if bool_decide (data = "view_balance") then showBalance m chatId
  else if startsWith data "deposit_" then
    processDeposit m chatId (replace "deposit_" "" data)
  else if bool_decide (data = "claim_bingo") then claimBingo m chatId
  else if bool_decide (data = "main_menu") then showMainMenu m chatId
  else ret ().

(** The block guarded by [try]. *)
Definition callbackBody (m : Methods) (chatId : Z) (cq : CallbackQuery) : M Num unit :=
  request (AnswerCallbackQuery (cq_id cq));;;
  data <~ defined (cq_data cq);;
  dispatch m chatId data.

Definition onCallbackQuery (m : Methods) (cq : CallbackQuery) : M Num unit :=
  chatId <~ defined (cq_chat cq);;
  try_catch
    (callbackBody m chatId cq)
    (λ _,
       log (ConsoleError "Callback error:");;;
       sendMessage chatId "❌ Error processing request." None None).

(** *** sendGameNotification *)

Definition youWonText (amount : Num) : string :=
  "🏆 *BINGO! YOU WON* \$" +:+ toFixed amount 2 +:+ "!" +:+ nl +:+ nl +:+ "Congratulations!".

Definition opponentWonText (username : option string) (amount : Num) : string :=
  "🏆 *" +:+ showOpt id username +:+ "* won \$" +:+ toFixed amount 2 +:+ "!"
  +:+ nl +:+ nl +:+ "Better luck next time!".

(** The message and the keyboard rows chosen by the [switch]; an unknown
    type leaves the message empty. *)
Definition notificationContent (chatId : Z) (gameId type : string) (data : EventData Num)
    : M Num (string * list (list Button)) :=
  if bool_decide (type = "game_starting") then
    ret ("🎮 *Game Starting* \#" +:+ slice0 8 gameId +:+ nl +:+ nl
         +:+ "Get ready! Game starts in 30 seconds.",
         [[mkButton "🎯 Buy Cards" (CallbackData ("select_card_page_" +:+ gameId +:+ "_1"))]])
  else if bool_decide (type = "number_called") then
    ret ("📢 *" +:+ showOpt id (ev_letter data) +:+ showOpt showNum (ev_number data)
         +:+ "* called!" +:+ nl +:+ nl
         +:+ "Current calls: " +:+ showOpt showNum (ev_currentCalls data),
         [[mkButton "🎮 View Game" (CallbackData ("join_game_" +:+ gameId))]])
  else if bool_decide (type = "player_joined") then
    ret ("👤 *" +:+ showOpt id (ev_username data) +:+ "* joined the game!" +:+ nl +:+ nl
         +:+ "Players: " +:+ showOpt showNum (ev_totalPlayers data),
         [])
  else if bool_decide (type = "card_sold") then
    ret ("🃏 Card #" +:+ showOpt showNum (ev_cardNumber data) +:+ " sold!" +:+ nl +:+ nl
         +:+ "Pot: \$" +:+ showOpt showNum (ev_pot data),
         [])
  else if bool_decide (type = "winner") then
    amount <~ defined (ev_amount data);;
    ret (if bool_decide (ev_userId data = Some (getUserId chatId))
         then youWonText amount
         else opponentWonText (ev_username data) amount,
         [[mkButton "🎮 Play Again" (CallbackData "main_menu")]])
  else if bool_decide (type = "game_ending") then
    ret ("⏰ *Game ending in 60 seconds*" +:+ nl +:+ nl +:+ "Last chance to claim bingo!",
         [[mkButton "🏆 Claim Bingo" (CallbackData "claim_bingo")]])
  else ret ("", []).

Definition sendGameNotification (chatId : Z) (gameId type : string) (data : EventData Num)
    : M Num unit :=
  try_catch
    (content <~ notificationContent chatId gameId type data;;
     if bool_decide (content.1 = "") then ret ()
     else sendMessage chatId content.1 (Some "MarkdownV2") (Some (mkKeyboard content.2)))
    (λ _, log (ConsoleError "Notification error:")).

End Bot.

End BotPart000.

(** ** The second bot variant (src/telegram-bot/src/bot.js)

    [GeezBingoBot] talking to the backend through its API client. *)

Module TelegramBot.
Import Js Effects.

(** The environment variables the constructor reads. *)
Record Env := mkEnv {
  TELEGRAM_BOT_TOKEN : option string;
  NODE_ENV : option string
}.

Inductive Mode :=
  | Polling
  | Webhook.

(** What becomes of the process when the bot is constructed:
    [process.exit(code)] ends it. *)
Inductive Process :=
  | Exited (code : Z)
  | Running (mode : Mode).

(** [!this.token]: the variable is not set, or it is empty. *)
Definition missing (token : option string) : bool :=
  match token with
  | None => true
  | Some t => bool_decide (t = "")
  end.

(** The constructor up to the choice of the transport. *)
Definition constructor (env : Env) : list Action * Process :=
  if missing (TELEGRAM_BOT_TOKEN env) then
    ([LoggerError "TELEGRAM_BOT_TOKEN is not defined in environment variables"], Exited 1)
  else if bool_decide (NODE_ENV env = Some "production") then
    ([], Running Webhook)
  else
    ([], Running Polling).

(** A session of [userSessions], stored by the /start handler. *)
Record Session (Num : Type) := mkSession {
  session_userId : string;
  session_username : option string;
  session_balance : option Num
}.
Arguments mkSession {Num}.
Arguments session_userId {Num} _.

(** The notification object: the fields [sendGameNotification] reads,
    and the [userId] and [username] of the event contract, which it does
    not read. *)
Record Notification (Num : Type) := mkNotification {
  type : string;
  n_gameId : option string;
  n_number : option Num;
  n_currentCalls : option Num;
  isWinner : bool;
  winnerName : option string;
  n_amount : option Num;
  n_userId : option string;
  n_username : option string
}.
Arguments mkNotification {Num}.
Arguments type {Num} _.
Arguments n_gameId {Num} _.
Arguments n_number {Num} _.
Arguments n_currentCalls {Num} _.
Arguments isWinner {Num} _.
Arguments winnerName {Num} _.
Arguments n_amount {Num} _.
Arguments n_userId {Num} _.
Arguments n_username {Num} _.

Section Bot.
Context {Num : Type} `{JsNumber Num}.

(** The bot's state: the [Map] from chat id to session. *)
Variable userSessions : gmap Z (Session Num).

(** [this.userSessions.get(chatId).userId], as [showBalance] reads it. *)
Definition sessionUserId (chatId : Z) : option string :=
  session_userId <$> userSessions !! chatId.

Definition youWonText (amount : Num) : string :=
  "🏆 *BINGO! YOU WON* \$" +:+ toFixed amount 2 +:+ "!" +:+ nl +:+ nl +:+ "Congratulations!".

Definition opponentWonText (name : option string) (amount : Num) : string :=
  "🏆 *" +:+ showOpt id name +:+ "* won \$" +:+ toFixed amount 2 +:+ "!"
  +:+ nl +:+ nl +:+ "Better luck next time!".

Definition notificationContent (notification : Notification Num)
    : M Num (string * list (list Button)) :=
  if bool_decide (type notification = "game_starting") then
    gameId <~ defined (n_gameId notification);;
    ret ("🎮 *Game Starting* \#" +:+ slice0 8 gameId +:+ nl +:+ nl +:+ "Get ready!",
         [[mkButton "🎯 Buy Cards" (CallbackData ("select_cards_" +:+ gameId))]])
  else if bool_decide (type notification = "number_called") then
    ret ("📢 *" +:+ showOpt showNum (n_number notification) +:+ "* called!" +:+ nl +:+ nl
         +:+ "Current calls: " +:+ showOpt showNum (n_currentCalls notification),
         [])
  else if bool_decide (type notification = "winner") then
    amount <~ defined (n_amount notification);;
    ret (if isWinner notification
         then youWonText amount
         else opponentWonText (winnerName notification) amount,
         [])
  else ret ("", []).

Definition sendGameNotification (chatId : Z) (notification : Notification Num) : M Num unit :=
  try_catch
    (content <~ notificationContent notification;;
     if bool_decide (content.1 = "") then ret ()
     else sendMessage chatId content.1 (Some "MarkdownV2") (Some (mkKeyboard content.2)))
    (λ _, log (LoggerError "Notification error:")).

(** [showGameInfo] is not followed further; it is handed the reply of
    [createNewGame] itself ([inl]) or the game of the reply of
    [getCurrentGame] ([inr]). *)
Variable showGameInfo : Z → Response Num + Game Num → M Num unit.

(** The play handler of this variant creates a game and shows it; it
    does not call itself. *)
Definition handlePlayCommand (chatId : Z) : M Num unit :=
  try_catch
    (currentGame <~ request ApiGetCurrentGame;;
     match game currentGame with
     | None =>
         sendMessage chatId "🎮 *Creating new game...*" (Some "Markdown") None;;;
         newGame <~ request ApiCreateNewGame;;
         showGameInfo chatId (inl newGame)
     | Some g => showGameInfo chatId (inr g)
     end)
    (λ _,
       log (LoggerError "Play command error:");;;
       sendMessage chatId "❌ Error loading game information." None None).

End Bot.

End TelegramBot.

(** ** The web client (src/geez-bingo-frontend/src/context/SocketContext.js) *)

Module Web.
Import Js.

(** *** The socket context *)

Section Socket.
(** The socket instance and the payload of an event are opaque. *)
Context {Socket Payload : Type}.

(** The state of [SocketProvider]. *)
Record Context := mkContext {
  socket : option Socket;
  isConnected : bool;
  reconnectAttempts : nat
}.

(** The page: the provider's state, the calls of [socket.emit] made so
    far and the warnings written to the console. *)
Record Page := mkPage {
  context : Context;
  emitted : list (Socket * string * Payload);
  warnings : list string
}.

(** [emit(event, data)] of the context value. *)
Definition emit (event : string) (data : Payload) (p : Page) : Page :=
  match socket (context p) with
  | Some s =>
      if isConnected (context p)
      then mkPage (context p) (emitted p ++ [(s, event, data)]) (warnings p)
      else mkPage (context p) (emitted p) (warnings p ++ ["Socket not connected"])
  | None => mkPage (context p) (emitted p) (warnings p ++ ["Socket not connected"])
  end.

End Socket.
Arguments Context Socket : clear implicits.
Arguments Page Socket Payload : clear implicits.

(** *** GameRoom *)

(** The payload of [numberCalled]: the handler reads [data.number]; a
    sequence number, if the gateway sends one, is not read. *)
Record NumberCalled (Num : Type) := mkNumberCalled {
  nc_number : option Num;
  nc_sequence : option Z
}.
Arguments mkNumberCalled {Num}.
Arguments nc_number {Num} _.
Arguments nc_sequence {Num} _.

(** The payload of [gameState]. *)
Record GameState (Num : Type) := mkGameState {
  gs_status : string;
  gs_pot : Num;
  gs_calledNumbers : list Num;
  gs_timeLeft : option Num
}.
Arguments mkGameState {Num}.
Arguments gs_status {Num} _.
Arguments gs_pot {Num} _.
Arguments gs_calledNumbers {Num} _.
Arguments gs_timeLeft {Num} _.

(** [toast.success(text, { icon, position })]. *)
Record Toast := mkToast {
  toast_text : string;
  toast_icon : string;
  toast_position : string
}.

(** The state of the component and the toasts shown so far. *)
Record Room (Num : Type) := mkRoom {
  gameState : option (GameState Num);
  myCards : list Card;
  selectedCard : option Card;
  roomTimeLeft : Num;
  toasts : list Toast
}.
Arguments mkRoom {Num}.
Arguments gameState {Num} _.
Arguments myCards {Num} _.
Arguments selectedCard {Num} _.
Arguments roomTimeLeft {Num} _.
Arguments toasts {Num} _.

Section GameRoom.
Context {Num : Type} `{JsNumber Num}.

(** [socket.on('gameState', ...)]: [setGameState(state)] and
    [setTimeLeft(state.timeLeft || 0)]. *)
Definition onGameState (state : GameState Num) (room : Room Num) : Room Num :=
  mkRoom (Some state) (myCards room) (selectedCard room)
         (match gs_timeLeft state with
          | Some t => if truthy t then t else ofZ 0
          | None => ofZ 0
          end)
         (toasts room).

(** [socket.on('numberCalled', ...)]: a toast, nothing else. *)
Definition onNumberCalled (data : NumberCalled Num) (room : Room Num) : Room Num :=
  mkRoom (gameState room) (myCards room) (selectedCard room) (roomTimeLeft room)
         (toasts room
          ++ [mkToast ("Number called: " +:+ showOpt showNum (nc_number data)) "🎯" "top-center"]).

(** What the cards are marked from: the cards held, the card shown in
    the statistics, and the called numbers of the game state. *)
Definition markingState (room : Room Num)
    : list Card * option Card * option (list Num) :=
  (myCards room, selectedCard room, gs_calledNumbers <$> gameState room).

(** The events received in turn. *)
Definition receiveAll (events : list (NumberCalled Num)) (room : Room Num) : Room Num :=
  foldl (λ r e, onNumberCalled e r) room events.

End GameRoom.

End Web.

(** ** Sample inputs *)

(** The usual ranges of the five columns, and a draw that takes the
    numbers of a column in order. *)
Definition sampleRanges : list (Z * Z) :=
  [(1, 15); (16, 30); (31, 45); (46, 60); (61, 75)]%Z.

Definition sampleDraw (n : Z) (ranges : list (Z * Z)) (row col : nat) : Z :=
  match ranges !! col with
  | Some (lo, _) => lo + n + Z.of_nat row
  | None => 0
  end.

(** Card 4 of a game: its middle row is B7, I22, FREE, G52, O67. *)
Definition sampleCard : Card := buildCard sampleDraw 4 sampleRanges "game-1".

(** The same card after the four numbers of its middle row were called. *)
Definition sampleCardMiddleRow : Card :=
  applyCalledNumber
    (applyCalledNumber
       (applyCalledNumber (applyCalledNumber sampleCard "B" 7) "I" 22) "G" 52) "O" 67.

(** A grid whose first cell is neither free nor numbered. *)
Definition brokenCard : Card :=
  mkCard 1 [[mkCell "B" None false false]] "game-1".

(** A winner event for the user of chat 42. *)
Definition ownWin : BotPart000.EventData Z :=
  BotPart000.mkEventData None None None (Some "abebe") None None None
    (Some "telegram_42") (Some 50%Z).

(** The sessions of the second variant after the user [u1] of chat 42
    sent /start. *)
Definition sampleSessions : gmap Z (TelegramBot.Session Z) :=
  {[ 42%Z := TelegramBot.mkSession "u1" (Some "abebe") (Some 100%Z) ]}.

(** The winner event of the contract (userId, username, amount) for the
    user of chat 42, and a notification flagged as a win that names
    another user. *)
Definition contractWin : TelegramBot.Notification Z :=
  TelegramBot.mkNotification "winner" None None None false None (Some 50%Z)
    (Some "u1") (Some "abebe").

Definition flaggedWin : TelegramBot.Notification Z :=
  TelegramBot.mkNotification "winner" None None None true (Some "sara") (Some 50%Z)
    (Some "u2") (Some "sara").

(** Methods that do nothing, for running the callback handler. *)
Definition idleMethods : BotPart000.Methods (Num := Z) :=
  BotPart000.mkMethods (λ _ _ _, Effects.ret ()) (λ _, Effects.ret ()) (λ _, Effects.ret ())
    (λ _ _, Effects.ret ()) (λ _, Effects.ret ()) (λ _, Effects.ret ()).


(** A page without a socket, and one with a connected socket. *)
Definition offlinePage : Web.Page nat Z :=
  Web.mkPage (Web.mkContext None false 0) [] [].

Definition onlinePage : Web.Page nat Z :=
  Web.mkPage (Web.mkContext (Some 1%nat) true 0) [] [].

(** A room holding the sample card. *)
Definition sampleRoom : Web.Room Z :=
  Web.mkRoom (Some (Web.mkGameState "active" 40%Z [7%Z] (Some 120%Z)))
             [sampleCard] (Some sampleCard) 120%Z [].

(** ** Further code of the first bot variant (src/unnamed/part_000) *)

(** Whether a character occurs in a string. *)
Fixpoint has_char (c : ascii) (s : string) : bool :=
  match s with
  | EmptyString => false
  | String x s' => Ascii.eqb x c || has_char c s'
  end.

(** The chats that messages were sent to, in order. *)
Definition recipients (actions : list Effects.Action) : list Z :=
  omap (λ a, match a with
             | Effects.SendMessage m => Some (Effects.chat m)
             | _ => None
             end) actions.

(** The requests made to the backend, in order. *)
Definition backendCalls (actions : list Effects.Action) : list Effects.Action :=
  List.filter (λ a, match a with
                    | Effects.HttpGet _ | Effects.HttpPost _ | Effects.HttpPostBuyCard _ _ => true
                    | _ => false
                    end) actions.

Module BotViews.
Import Js Effects.

(** *** The keyboard of showCardSelection

    The page handed to [showCardSelection] is the result of [parseInt]:
    an integer, or NaN ([None]). The cards of the page are given by their
    numbers, and [totalPages] is a number of pages. *)

Definition showPage (page : option Z) : string :=
  match page with
  | Some p => toString p
  | None => "NaN"
  end.

Definition cardButton (gameId : option string) (n : Z) : Button :=
  mkButton ("#" +:+ toString n)
           (CallbackData ("buy_card_" +:+ showOpt id gameId +:+ "_" +:+ toString n)).

(** [for (let i = 0; i < cards.length; i += 4) cards.slice(i, i + 4)]. *)
Fixpoint rowsOfFour {A} (l : list A) : list (list A) :=
  match l with
  | [] => []
  | a :: b :: c :: d :: rest => [a; b; c; d] :: rowsOfFour rest
  | _ => [l]
  end.

Definition pageData (gameId : option string) (page : Z) : string :=
  "select_card_page_" +:+ showOpt id gameId +:+ "_" +:+ toString page.

Definition navButtons (gameId : option string) (page : option Z) (totalPages : Z)
    : list Button :=
  (match page with
   | Some p => if (1 <? p)%Z
               then [mkButton "⬅️ Previous" (CallbackData (pageData gameId (p - 1)))]
               else []
   | None => []
   end)
  ++ [mkButton ("Page " +:+ showPage page +:+ "/" +:+ toString totalPages)
               (CallbackData "noop")]
  ++ (match page with
      | Some p => if (p <? totalPages)%Z
                  then [mkButton "Next ➡️" (CallbackData (pageData gameId (p + 1)))]
                  else []
      | None => []
      end).

Definition selectionKeyboard (gameId : option string) (page : option Z) (totalPages : Z)
    (cards : list Z) : Keyboard :=
  mkKeyboard
    (map (map (cardButton gameId)) (rowsOfFour cards)
     ++ [navButtons gameId page totalPages]
     ++ [[mkButton "🎲 Buy Random Card"
            (CallbackData ("buy_card_" +:+ showOpt id gameId +:+ "_random"));
          mkButton "❌ Cancel" (CallbackData "main_menu")]]).

(** *** showDepositOptions *)


Definition depositKeyboard : Keyboard :=
  mkKeyboard
    [[mkButton "$10" (CallbackData "deposit_10");
      mkButton "$25" (CallbackData "deposit_25");
      mkButton "$50" (CallbackData "deposit_50")];
     [mkButton "$100" (CallbackData "deposit_100");
      mkButton "$250" (CallbackData "deposit_250");
      mkButton "$500" (CallbackData "deposit_500")];
     [mkButton "📝 Custom Amount" (CallbackData "deposit_custom");
      mkButton "💰 View Balance" (CallbackData "view_balance")];
     [mkButton "🔙 Back" (CallbackData "main_menu")]].

(** *** The callback handler's report

    What the callback handler leaves behind when the guarded block fails
    after the query was answered: the answer, the log entry and the
    message. *)
Definition callbackReport (cqid : string) (chatId : Z) : list Action :=
  [AnswerCallbackQuery cqid;
   ConsoleError "Callback error:";
   SendMessage (mkMessage chatId "❌ Error processing request." None None)].

Section Views.
Context {Num : Type} `{JsNumber Num}.
Variable backendUrl : string.


(** *** broadcastGameUpdate *)

(** [response.data.players] is read from the reply: each player by its
    [telegramChatId] ([None] when the player has none), or nothing when
    the field is missing. *)
Variable playersOf : Response Num → option (list (option Z)).

(** [if (player.telegramChatId)]: the id is there and is not zero. *)
Definition reachable (player : option Z) : option Z :=
  match player with
  | Some c => if (c =? 0)%Z then None else Some c
  | None => None
  end.

(** The loop over the players; the pause between two notifications
    changes nothing that is recorded. *)
Fixpoint notifyPlayers (players : list (option Z)) (gameId type : string)
    (data : BotPart000.EventData Num) : M Num unit :=
  match players with
  | [] => ret ()
  | player :: rest =>
      (match reachable player with
       | Some c => BotPart000.sendGameNotification c gameId type data
       | None => ret ()
       end);;;
      notifyPlayers rest gameId type data
  end.

Definition broadcastGameUpdate (gameId type : string) (data : BotPart000.EventData Num)
    : M Num unit :=
  try_catch
    (response <~ request (HttpGet (backendUrl +:+ "/api/games/" +:+ gameId +:+ "/players"));;
     players <~ defined (playersOf response);;
     notifyPlayers players gameId type data)
    (λ _, log (ConsoleError "Broadcast error:")).

(** The types for which [sendGameNotification] of this variant has a
    text, and the events it can print: a winner needs its amount. *)
Definition knownType (type : string) : bool :=
  bool_decide (type = "game_starting") || bool_decide (type = "number_called")
  || bool_decide (type = "player_joined") || bool_decide (type = "card_sold")
  || bool_decide (type = "winner") || bool_decide (type = "game_ending").

Definition printable (type : string) (data : BotPart000.EventData Num) : bool :=
  knownType type
  && (negb (bool_decide (type = "winner"))
      || match BotPart000.ev_amount data with
         | Some _ => true
         | None => false
         end).

(** *** Rounds of handlePlayCommand *)

(** Round [k] of the play handler, counted from the calls already made:
    the current game is asked for and there is none, the message is sent
    and the game is created, all three without a failure. *)
Definition quietRound (w : World Num) (k : nat) : Prop :=
  (∃ d, replies w (clock w + 3 * k) = Responds d ∧ game d = None)
  ∧ replies w (clock w + 3 * k + 1) ≠ Fails
  ∧ replies w (clock w + 3 * k + 2) ≠ Fails.

End Views.

End BotViews.

(** ** SocketProvider of the web client

    The handlers that [SocketProvider] registers on its socket instance,
    as transitions of the provider's state. What they write with
    [console.log] and [console.error] is not recorded. *)

Module SocketProvider.

Inductive SocketEvent :=
  | Connect
  | Disconnect (reason : string)
  | ConnectError (message : string)
  | ReconnectAttempt (attempt : nat)
  | Reconnect (attempt : nat)
  | GameStateUpdate
  | SocketError.

Section Provider.
Context {Socket Payload : Type}.

(** The page, and the number of calls of [socketInstance.connect()]. *)
Record Provider := mkProvider {
  page : Web.Page Socket Payload;
  connectCalls : nat
}.

(** The socket instance of the effect, and the payload
    [{ userId: user?.id }] of the authentication. *)
Variable socketInstance : Socket.
Variable authentication : Payload.

(** The state once the effect has run: the socket is set, not yet
    connected. *)
Definition mounted : Provider :=
  mkProvider (Web.mkPage (Web.mkContext (Some socketInstance) false 0) [] []) 0.

Definition setIsConnected (b : bool) (p : Web.Page Socket Payload) : Web.Page Socket Payload :=
  Web.mkPage (Web.mkContext (Web.socket (Web.context p)) b
                            (Web.reconnectAttempts (Web.context p)))
             (Web.emitted p) (Web.warnings p).

Definition setReconnectAttempts (f : nat → nat) (p : Web.Page Socket Payload)
    : Web.Page Socket Payload :=
  Web.mkPage (Web.mkContext (Web.socket (Web.context p)) (Web.isConnected (Web.context p))
                            (f (Web.reconnectAttempts (Web.context p))))
             (Web.emitted p) (Web.warnings p).

Definition onEvent (e : SocketEvent) (p : Provider) : Provider :=
  match e with
  | Connect =>
      let p1 := setReconnectAttempts (λ _, 0) (setIsConnected true (page p)) in
      mkProvider (Web.mkPage (Web.context p1)
                             (Web.emitted p1 ++ [(socketInstance, "authenticate", authentication)])
                             (Web.warnings p1))
                 (connectCalls p)
  | Disconnect reason =>
      mkProvider (setIsConnected false (page p))
                 (if bool_decide (reason = "io server disconnect")
                  then S (connectCalls p) else connectCalls p)
  | ConnectError _ =>
      mkProvider (setReconnectAttempts S (page p)) (connectCalls p)
  | Reconnect _ =>
      mkProvider (setIsConnected true (page p)) (connectCalls p)
  | ReconnectAttempt _ | GameStateUpdate | SocketError => p
  end.

Definition run (events : list SocketEvent) (p : Provider) : Provider :=
  foldl (λ q e, onEvent e q) p events.

End Provider.
Arguments Provider Socket Payload : clear implicits.

End SocketProvider.

(** ** Further sample inputs *)

(** Players of a game: two with a chat, one without, one with the id 0. *)
Definition samplePlayers : list (option Z) := [Some 42%Z; None; Some 0%Z; Some 77%Z].

(** A backend whose replies all fail except the first. *)
Definition failingAfterFirst : Effects.World Z :=
  Effects.mkWorld (λ k, match k with
                        | O => Effects.Responds Effects.noGame
                        | _ => Effects.Fails
                        end) 0 [].


(** A backend that has a game from the third round on. *)
Definition sampleGame : Effects.Game Z :=
  Effects.mkGame "3f2a9c10-77aa" "waiting" 40%Z (Some 4%Z) None None.

Definition gameFromThirdRound : Effects.World Z :=
  Effects.mkWorld (λ k, if (k <? 6)%nat then Effects.Responds Effects.noGame
                        else Effects.Responds
                               (Effects.mkResponse (Some sampleGame) false None None None))
                  0 [].

(** A reply that reports a purchase of the broken card. *)
Definition brokenPurchase : Effects.World Z :=
  Effects.mkWorld (λ _, Effects.Responds
                          (Effects.mkResponse None true (Some brokenCard) (Some 90%Z) None))
                  0 [].

(** * Properties *)

(** ** Lists and options *)

Lemma length_filter_sum {A} (f : A → bool) (l : list A) :
  length (List.filter f l) = sum_list (map (λ x, if f x then 1 else 0) l).
Proof.
  induction l as [|x l IH]; simpl; [reflexivity|].
  destruct (f x); simpl; rewrite IH; reflexivity.
Qed.

Lemma filter_all {A} (f : A → bool) (l : list A) :
  (∀ x, In x l → f x = true) → List.filter f l = l.
Proof.
  induction l as [|x l IH]; simpl; intros Hall; [reflexivity|].
  rewrite (Hall x) by (left; reflexivity).
  f_equal. apply IH. intros y Hy. apply Hall. right. exact Hy.
Qed.

(** A loop that accumulates text and stops at the first failure ends
    with a text exactly when no step fails. *)
Lemma foldl_option_is_Some {A} (f : A → option string) (g : string → string → string)
    (l : list A) (init : option string) :
  is_Some (foldl (λ acc x, a ← acc; b ← f x; Some (g a b)) init l)
  ↔ is_Some init ∧ ∀ x, In x l → is_Some (f x).
Proof.
  revert init. induction l as [|x l IH]; intros init; simpl.
  - split; [intros Hs; split; [exact Hs|intros ? []]|intros [Hs _]; exact Hs].
  - rewrite IH. split.
    + intros [Hstep Hrest].
      destruct init as [a|]; simpl in Hstep; [|destruct Hstep; discriminate].
      destruct (f x) as [b|] eqn:Hfx; simpl in Hstep; [|destruct Hstep; discriminate].
      split; [eexists; reflexivity|].
      intros y [<-|Hy]; [rewrite Hfx; eexists; reflexivity|apply Hrest; exact Hy].
    + intros [[a ->] Hall].
      destruct (Hall x (or_introl eq_refl)) as [b Hb].
      split; [simpl; rewrite Hb; simpl; eexists; reflexivity|].
      intros y Hy. apply Hall. right. exact Hy.
Qed.

Lemma In_seq_5 (i : nat) : In i (seq 0 5) ↔ i < 5.
Proof. rewrite in_seq. lia. Qed.

(** ** Cards *)

(** A 5×5 grid is five rows of five cells. *)
Lemma is5x5_rows (card : Card) :
  is5x5 card →
  ∃ a0 a1 a2 a3 a4 b0 b1 b2 b3 b4 c0 c1 c2 c3 c4 d0 d1 d2 d3 d4 e0 e1 e2 e3 e4,
    numbers card = [[a0; a1; a2; a3; a4]; [b0; b1; b2; b3; b4]; [c0; c1; c2; c3; c4];
                    [d0; d1; d2; d3; d4]; [e0; e1; e2; e3; e4]].
Proof.
  intros [Hlen Hrows].
  destruct (numbers card) as [|ra [|rb [|rc [|rd [|re [|]]]]]]; simpl in Hlen; try lia.
  repeat match goal with
         | Hf : Forall _ (_ :: _) |- _ => inversion Hf; subst; clear Hf
         end.
  repeat match goal with
         | Hl : length ?r = 5 |- _ =>
             destruct r as [|? [|? [|? [|? [|? [|]]]]]]; simpl in Hl; try lia; clear Hl
         end.
  repeat eexists.
Qed.

Lemma getCell_applyCalledNumber (card : Card) (l : string) (n : Z) (row col : nat) :
  getCell (applyCalledNumber card l n) row col = markCell l n <$> getCell card row col.
Proof.
  unfold getCell, applyCalledNumber; simpl.
  change (map (map (markCell l n)) (numbers card))
    with (fmap (M := list) (fmap (M := list) (markCell l n)) (numbers card)).
  rewrite list_lookup_fmap.
  destruct (numbers card !! row) as [r|]; simpl; [|reflexivity].
  apply list_lookup_fmap.
Qed.

Lemma markCell_idempotent (l : string) (n : Z) (cell : Cell) :
  markCell l n (markCell l n cell) = markCell l n cell.
Proof.
  unfold markCell.
  destruct (matchesCall l n cell) eqn:Hm; [|rewrite Hm; reflexivity].
  unfold matchesCall in *; simpl. rewrite Hm. reflexivity.
Qed.

Lemma wins_exists (card : Card) :
  wins card = true ↔ ∃ p, In p patterns ∧ complete card p = true.
Proof.
  unfold wins, detectWin. split.
  - destruct (List.find (complete card) patterns) as [p|] eqn:Hfind; [|discriminate].
    intros _. exists p. apply find_some in Hfind. exact Hfind.
  - intros [p [Hin Hc]].
    destruct (List.find (complete card) patterns) as [q|] eqn:Hfind; [reflexivity|].
    rewrite (find_none _ _ Hfind p Hin) in Hc. discriminate.
Qed.

Lemma complete_Row (card : Card) (r : nat) :
  complete card (Row r) = true ↔ ∀ c, c < 5 → calledAt card r c = true.
Proof.
  unfold complete. rewrite forallb_forall. simpl. split.
  - intros Hall c Hc. apply (Hall (r, c)).
    destruct c as [|[|[|[|[|]]]]]; simpl; try lia; auto 10.
  - intros Hall rc Hin.
    repeat (destruct Hin as [<-|Hin]; [simpl; apply Hall; lia|]). destruct Hin.
Qed.

Lemma complete_Column (card : Card) (c : nat) :
  complete card (Column c) = true ↔ ∀ r, r < 5 → calledAt card r c = true.
Proof.
  unfold complete. rewrite forallb_forall. simpl. split.
  - intros Hall r Hr. apply (Hall (r, c)).
    destruct r as [|[|[|[|[|]]]]]; simpl; try lia; auto 10.
  - intros Hall rc Hin.
    repeat (destruct Hin as [<-|Hin]; [simpl; apply Hall; lia|]). destruct Hin.
Qed.

Lemma complete_DiagonalDown (card : Card) :
  complete card DiagonalDown = true ↔ ∀ i, i < 5 → calledAt card i i = true.
Proof.
  unfold complete. rewrite forallb_forall. simpl. split.
  - intros Hall i Hi. apply (Hall (i, i)).
    destruct i as [|[|[|[|[|]]]]]; simpl; try lia; auto 10.
  - intros Hall rc Hin.
    repeat (destruct Hin as [<-|Hin]; [simpl; apply Hall; lia|]). destruct Hin.
Qed.

Lemma complete_DiagonalUp (card : Card) :
  complete card DiagonalUp = true ↔ ∀ i, i < 5 → calledAt card i (4 - i) = true.
Proof.
  unfold complete. rewrite forallb_forall. simpl. split.
  - intros Hall i Hi. apply (Hall (i, 4 - i)).
    destruct i as [|[|[|[|[|]]]]]; simpl; try lia; auto 10.
  - intros Hall rc Hin.
    destruct Hin as [<-|[<-|[<-|[<-|[<-|[]]]]]]; simpl;
      [apply (Hall 0)|apply (Hall 1)|apply (Hall 2)|apply (Hall 3)|apply (Hall 4)]; lia.
Qed.

Lemma In_patterns (p : Pattern) :
  In p patterns ↔
  (∃ r, r < 5 ∧ p = Row r) ∨ (∃ c, c < 5 ∧ p = Column c) ∨ p = DiagonalDown ∨ p = DiagonalUp.
Proof.
  unfold patterns. rewrite !in_app_iff, !in_map_iff. simpl.
  setoid_rewrite In_seq_5. split.
  - intros [[r [<- Hr]]|[[c [<- Hc]]|[<-|[<-|[]]]]]; eauto 6.
  - intros [[r [Hr ->]]|[[c [Hc ->]]|[->| ->]]]; eauto 6.
Qed.

Lemma formatCardAsText_is_Some (card : Card) :
  is_Some (formatCardAsText card)
  ↔ ∀ row col, row < 5 → col < 5 → is_Some (getCell card row col ≫= formatCell).
Proof.
  unfold formatCardAsText.
  rewrite (foldl_option_is_Some (formatRow card) (λ text rowText, text +:+ rowText +:+ nl)).
  setoid_rewrite In_seq_5. unfold formatRow.
  setoid_rewrite (foldl_option_is_Some (λ col, getCell card _ col ≫= formatCell) String.append).
  setoid_rewrite In_seq_5. split.
  - intros [_ Hrows] row col Hrow Hcol. apply (Hrows row Hrow). exact Hcol.
  - intros Hcells. split; [eexists; reflexivity|].
    intros row Hrow. split; [eexists; reflexivity|].
    intros col Hcol. apply Hcells; assumption.
Qed.

(** ** Texts *)

Lemma append_cons (c : ascii) (a b : string) : String c a +:+ b = String c (a +:+ b).
Proof. reflexivity. Qed.

Lemma list_ascii_of_string_app (a b : string) :
  list_ascii_of_string (a +:+ b) = (list_ascii_of_string a ++ list_ascii_of_string b)%list.
Proof.
  induction a as [|c a IH]; [reflexivity|].
  rewrite append_cons. simpl. rewrite IH. reflexivity.
Qed.

(** Two texts with different endings are different. *)
Lemma endings_differ (p q : string) :
  p +:+ "Congratulations!" ≠ q +:+ "Better luck next time!".
Proof.
  intros Heq. apply (f_equal list_ascii_of_string) in Heq.
  rewrite !list_ascii_of_string_app in Heq.
  apply (f_equal (@List.rev ascii)) in Heq.
  rewrite !rev_app_distr in Heq. simpl in Heq. discriminate Heq.
Qed.

Lemma append_assoc (a b c : string) : (a +:+ b) +:+ c = a +:+ (b +:+ c).
Proof.
  induction a as [|x a IH]; [reflexivity|].
  rewrite !append_cons, IH. reflexivity.
Qed.

Section CardClaims.
Context {ColumnRanges : Type}.
Variable drawNumber : Z → ColumnRanges → nat → nat → Z.

Lemma getCell_buildCard (n : Z) (cr : ColumnRanges) (g : string) (row col : nat) :
  getCell (buildCard drawNumber n cr g) row col =
  if (row <? 5)%nat && (col <? 5)%nat then Some (buildCell drawNumber n cr row col) else None.
Proof.
  destruct row as [|[|[|[|[|row]]]]]; destruct col as [|[|[|[|[|col]]]]]; reflexivity.
Qed.

(** C1: the win detector reports a win exactly when one of the five
    rows, one of the five columns or one of the two diagonals has its five
    cells called; a freshly built card, where only the FREE centre is
    marked, does not win. *)
Theorem win_iff_pattern_complete :
  (∀ card : Card,
     wins card = true ↔
     (∃ r, r < 5 ∧ ∀ c, c < 5 → calledAt card r c = true)
     ∨ (∃ c, c < 5 ∧ ∀ r, r < 5 → calledAt card r c = true)
     ∨ (∀ i, i < 5 → calledAt card i i = true)
     ∨ (∀ i, i < 5 → calledAt card i (4 - i) = true))
  ∧ (∀ (n : Z) (cr : ColumnRanges) (g : string),
       wins (buildCard drawNumber n cr g) = false
       ∧ detectWin (buildCard drawNumber n cr g) = None).
Proof.
  split.
  - intros card. rewrite wins_exists. split.
    + intros [p [Hin Hc]]. apply In_patterns in Hin.
      destruct Hin as [[r [Hr ->]]|[[c [Hc' ->]]|[->| ->]]].
      * left. exists r. split; [exact Hr|]. apply complete_Row. exact Hc.
      * right; left. exists c. split; [exact Hc'|]. apply complete_Column. exact Hc.
      * right; right; left. apply complete_DiagonalDown. exact Hc.
      * right; right; right. apply complete_DiagonalUp. exact Hc.
    + intros [[r [Hr Hall]]|[[c [Hc Hall]]|[Hall|Hall]]].
      * exists (Row r). split; [apply In_patterns; eauto|apply complete_Row; exact Hall].
      * exists (Column c). split; [apply In_patterns; eauto 6|apply complete_Column; exact Hall].
      * exists DiagonalDown. split; [apply In_patterns; auto|apply complete_DiagonalDown; exact Hall].
      * exists DiagonalUp. split; [apply In_patterns; auto|apply complete_DiagonalUp; exact Hall].
  - intros n cr g. split; reflexivity.
Qed.

(** C3: on a constructed card the centre cell (row 2, column 2) is free
    and called, it is the only free cell, a free cell carries no number and
    every other cell carries one; the card formatter therefore prints such
    a card, and the text is the header, the rule and five rows in which the
    centre reads FREE and every other cell its column letter and its number
    on two digits; the formatter reads [cell.number] of every cell that is
    not free, and fails on a grid with a cell that is neither free nor
    numbered. *)
Theorem buildCard_center_free :
  (∀ (n : Z) (cr : ColumnRanges) (g : string),
     let card := buildCard drawNumber n cr g in
     let cellText row col :=
       if (row =? 2)%nat && (col =? 2)%nat then " FREE "
       else " " +:+ nth col columns "" +:+ padStart 2 (toString (drawNumber n cr row col))
            +:+ " " in
     let rowText row :=
       toString (Z.of_nat (row + 1)) +:+ " |" +:+ cellText row 0%nat +:+ cellText row 1%nat
       +:+ cellText row 2%nat +:+ cellText row 3%nat +:+ cellText row 4%nat +:+ nl in
     is5x5 card
     ∧ (∃ cell, getCell card 2 2 = Some cell ∧ free cell = true ∧ called cell = true)
     ∧ (∀ row col cell, getCell card row col = Some cell →
          (free cell = true ↔ row = 2 ∧ col = 2)
          ∧ (free cell = true → number cell = None)
          ∧ (free cell = false → ∃ k, number cell = Some k))
     ∧ is_Some (formatCardAsText card)
     ∧ formatCardAsText card
       = Some ("     B    I    N    G    O" +:+ nl
               +:+ "   ─────────────────────────" +:+ nl
               +:+ rowText 0%nat +:+ rowText 1%nat +:+ rowText 2%nat +:+ rowText 3%nat
               +:+ rowText 4%nat))
  ∧ (∀ (card : Card) (row col : nat) (cell : Cell),
       row < 5 → col < 5 → getCell card row col = Some cell →
       free cell = false → number cell = None →
       formatCardAsText card = None).
Proof.
  split.
  - intros n cr g card cellText rowText. subst card. split; [|split; [|split; [|split]]].
    + split; [reflexivity|]. repeat constructor.
    + eexists. split; [reflexivity|]. split; reflexivity.
    + intros row col cell. rewrite getCell_buildCard.
      destruct (row <? 5)%nat eqn:Hrow; [|discriminate].
      destruct (col <? 5)%nat eqn:Hcol; [|discriminate].
      simpl. intros [= <-]. unfold buildCell.
      destruct (Nat.eqb_spec row 2) as [Hr|Hr]; destruct (Nat.eqb_spec col 2) as [Hc|Hc];
        simpl; repeat split; intros; try discriminate; try lia; eauto.
    + apply formatCardAsText_is_Some. intros row col Hrow Hcol.
      rewrite getCell_buildCard.
      apply Nat.ltb_lt in Hrow, Hcol. rewrite Hrow, Hcol. simpl.
      unfold formatCell, buildCell.
      destruct ((row =? 2)%nat && (col =? 2)%nat); simpl; eexists; reflexivity.
    + subst rowText cellText. unfold formatCardAsText, formatRow.
      cbn [foldl seq]. rewrite !getCell_buildCard.
      cbn [Nat.ltb Nat.leb andb mbind option_bind buildCell Nat.eqb formatCell free number
           letter Nat.add Z.of_nat Pos.of_succ_nat Pos.succ nth columns join repeat_string].
      rewrite !append_assoc. repeat rewrite append_cons. rewrite ?append_nil_l.
      reflexivity.
  - intros card row col cell Hrow Hcol Hcell Hfree Hnum.
    destruct (formatCardAsText card) as [text|] eqn:Hfmt; [|reflexivity].
    assert (Hsome : is_Some (formatCardAsText card)) by (rewrite Hfmt; eexists; reflexivity).
    rewrite formatCardAsText_is_Some in Hsome.
    specialize (Hsome row col Hrow Hcol).
    rewrite Hcell in Hsome. simpl in Hsome. unfold formatCell in Hsome.
    rewrite Hfree, Hnum in Hsome. destruct Hsome; discriminate.
Qed.

(** C8: on a 5×5 card the count of marked cells is the number of grid
    positions whose cell is called, the FREE centre included: at most 25,
    and 25 when every cell is called. *)
Theorem markedCount_counts_called (card : Card) :
  is5x5 card →
  markedCount card = length (List.filter (λ rc, calledAt card rc.1 rc.2) positions)
  ∧ (markedCount card ≤ 25)%nat
  ∧ ((∀ row col, row < 5 → col < 5 → calledAt card row col = true) → markedCount card = 25)
  ∧ (calledAt card 2 2 = true → (1 ≤ markedCount card)%nat).
Proof.
  intros H5.
  assert (Hcount : markedCount card
                   = length (List.filter (λ rc, calledAt card rc.1 rc.2) positions)).
  { destruct (is5x5_rows card H5) as
      (a0 & a1 & a2 & a3 & a4 & b0 & b1 & b2 & b3 & b4 & c0 & c1 & c2 & c3 & c4
       & d0 & d1 & d2 & d3 & d4 & e0 & e1 & e2 & e3 & e4 & Hgrid).
    unfold markedCount, calledAt, getCell. rewrite Hgrid.
    rewrite !length_filter_sum. reflexivity. }
  split; [exact Hcount|]. split; [|split].
  - rewrite Hcount. apply (filter_length_le _ positions).
  - intros Hall. rewrite Hcount, filter_all; [reflexivity|].
    intros [row col] Hin. simpl. apply Hall.
    + unfold positions in Hin. simpl in Hin.
      repeat (destruct Hin as [[= <- <-]|Hin]; [lia|]). destruct Hin.
    + unfold positions in Hin. simpl in Hin.
      repeat (destruct Hin as [[= <- <-]|Hin]; [lia|]). destruct Hin.
  - intros Hcentre. rewrite Hcount, length_filter_sum.
    unfold positions. simpl. rewrite Hcentre. lia.
Qed.

End CardClaims.

(** C2: applying the same call twice gives the card that applying it
    once gives, and one application changes nothing but the flag [called],
    which it sets on the cells that are not free and match the letter and
    the number. *)
Theorem applyCalledNumber_idempotent (card : Card) (l : string) (n : Z) :
  applyCalledNumber (applyCalledNumber card l n) l n = applyCalledNumber card l n
  ∧ card_number (applyCalledNumber card l n) = card_number card
  ∧ gameId (applyCalledNumber card l n) = gameId card
  ∧ (∀ row col, getCell card row col = None →
       getCell (applyCalledNumber card l n) row col = None)
  ∧ (∀ row col cell, getCell card row col = Some cell →
       ∃ cell', getCell (applyCalledNumber card l n) row col = Some cell'
         ∧ letter cell' = letter cell
         ∧ number cell' = number cell
         ∧ free cell' = free cell
         ∧ called cell' =
             called cell
             || (negb (free cell) && bool_decide (letter cell = l)
                 && bool_decide (number cell = Some n))).
Proof.
  split; [|split; [reflexivity|split; [reflexivity|split]]].
  - unfold applyCalledNumber; simpl. f_equal.
    rewrite map_map. apply map_ext. intros row.
    rewrite map_map. apply map_ext. intros cell. apply markCell_idempotent.
  - intros row col Hnone. rewrite getCell_applyCalledNumber, Hnone. reflexivity.
  - intros row col cell Hcell. rewrite getCell_applyCalledNumber, Hcell. simpl.
    eexists. split; [reflexivity|]. unfold markCell.
    fold (matchesCall l n cell).
    destruct (matchesCall l n cell); simpl; repeat split; auto using orb_true_r, orb_false_r.
Qed.

(** ** The web client *)

(** C10: [emit] never changes the provider's state; without a socket, or
    while it is not connected, nothing is sent and one warning is written;
    with a connected socket exactly the given event and payload are
    handed to it and nothing is written. *)
Theorem emit_only_when_connected {Socket Payload : Type}
    (event : string) (data : Payload) (p : Web.Page Socket Payload) :
  Web.context (Web.emit event data p) = Web.context p
  ∧ (Web.socket (Web.context p) = None ∨ Web.isConnected (Web.context p) = false →
       Web.emitted (Web.emit event data p) = Web.emitted p
       ∧ Web.warnings (Web.emit event data p) = (Web.warnings p ++ ["Socket not connected"])%list)
  ∧ (∀ s, Web.socket (Web.context p) = Some s → Web.isConnected (Web.context p) = true →
       Web.emitted (Web.emit event data p) = (Web.emitted p ++ [(s, event, data)])%list
       ∧ Web.warnings (Web.emit event data p) = Web.warnings p).
Proof.
  unfold Web.emit. split; [|split].
  - destruct (Web.socket (Web.context p)); [destruct (Web.isConnected (Web.context p))|];
      reflexivity.
  - intros [Hnone|Hoff].
    + rewrite Hnone. split; reflexivity.
    + rewrite Hoff. destruct (Web.socket (Web.context p)); split; reflexivity.
  - intros s Hs Hon. rewrite Hs, Hon. split; reflexivity.
Qed.

Section GameRoomClaims.
Context {Num : Type} `{Js.JsNumber Num}.

(** C4, as amended: no [numberCalled] event, new, repeated or late,
    changes what the cards are marked from; the handler shows one toast
    per event received, with the text [Number called: <number>], the
    target icon and the position top-center, in the order of the events;
    it reads only [data.number], and keeps no sequence number. *)
Theorem numberCalled_keeps_marking
    (events : list (Web.NumberCalled Num)) (room : Web.Room Num) :
  Web.markingState (Web.receiveAll events room) = Web.markingState room
  ∧ length (Web.toasts (Web.receiveAll events room))
    = (length (Web.toasts room) + length events)%nat
  ∧ (∀ e1 e2 : Web.NumberCalled Num,
       Web.nc_number e1 = Web.nc_number e2 →
       Web.onNumberCalled e1 room = Web.onNumberCalled e2 room)
  ∧ Web.toasts (Web.receiveAll events room)
    = (Web.toasts room
       ++ map (λ e, Web.mkToast
                      ("Number called: " +:+ Js.showOpt Js.showNum (Web.nc_number e))
                      "🎯" "top-center")
              events)%list
  ∧ Web.gameState (Web.receiveAll events room) = Web.gameState room
  ∧ Web.roomTimeLeft (Web.receiveAll events room) = Web.roomTimeLeft room.
Proof.
  assert (Hstep : ∀ e l r, Web.receiveAll (e :: l) r
                           = Web.receiveAll l (Web.onNumberCalled e r)) by reflexivity.
  split; [|split; [|split; [|split; [|split]]]].
  - revert room. induction events as [|e events IH]; intros room; [reflexivity|].
    rewrite Hstep, IH. reflexivity.
  - revert room. induction events as [|e events IH]; intros room; [simpl; lia|].
    rewrite Hstep, IH. simpl. rewrite length_app. simpl. lia.
  - intros e1 e2 Heq. unfold Web.onNumberCalled. rewrite Heq. reflexivity.
  - revert room. induction events as [|e events IH]; intros room.
    + simpl. rewrite app_nil_r. reflexivity.
    + rewrite Hstep, IH. simpl. rewrite <- app_assoc. reflexivity.
  - revert room. induction events as [|e events IH]; intros room; [reflexivity|].
    rewrite Hstep, IH. reflexivity.
  - revert room. induction events as [|e events IH]; intros room; [reflexivity|].
    rewrite Hstep, IH. reflexivity.
Qed.

End GameRoomClaims.

(** C4, as stated, fails: a [numberCalled] event that was already
    received, and one with a lower sequence number than the last, are not
    discarded; each is handled like a new one and shows its toast again. *)
Lemma numberCalled_replay_not_discarded :
  let room := Web.mkRoom (Num := Z) None [] None 0%Z [] in
  let first := Web.mkNumberCalled (Some 7%Z) (Some 1%Z) in
  let second := Web.mkNumberCalled (Some 19%Z) (Some 2%Z) in
  let seen := Web.receiveAll [first; second] room in
  Web.onNumberCalled second seen ≠ seen
  ∧ Web.onNumberCalled first seen ≠ seen
  ∧ Web.toast_text <$> Web.toasts (Web.onNumberCalled first seen)
    = ["Number called: 7"; "Number called: 19"; "Number called: 7"].
Proof.
  cbv zeta. split; [|split].
  - intros Heq. apply (f_equal (λ r, length (Web.toasts r))) in Heq.
    vm_compute in Heq. discriminate.
  - intros Heq. apply (f_equal (λ r, length (Web.toasts r))) in Heq.
    vm_compute in Heq. discriminate.
  - vm_compute. reflexivity.
Qed.

(** ** The bots *)

Section BotClaims.
Import Js Effects.
Context {Num : Type} `{JsNumber Num}.

Lemma handlePlayCommand_empty_round (backendUrl : string) (chatId : Z) (fuel k : nat)
    (tr : list Action) :
  BotPart000.handlePlayCommand backendUrl fuel chatId
    (mkWorld (λ _, Responds (noGame (Num := Num))) k tr)
  = (OutOfFuel,
     mkWorld (λ _, Responds noGame) (k + 3 * fuel)
             (tr ++ concat (replicate fuel (BotPart000.emptyRound backendUrl chatId)))).
Proof.
  revert k tr. induction fuel as [|fuel IH]; intros k tr.
  - simpl. unfold out_of_fuel. rewrite Nat.add_0_r, app_nil_r. reflexivity.
  - cbn [BotPart000.handlePlayCommand].
    unfold try_catch, bind, request, sendMessage, bind, request, ret; cbn -[String.append].
    rewrite IH. f_equal. f_equal; [lia|].
    rewrite <- !app_assoc. reflexivity.
Qed.

(** C6: against a backend that answers every call and never has a
    current game, the play handler of the first variant does not return
    within any number of nested invocations: after [fuel] of them it has
    made [3 * fuel] calls and is still calling itself. *)
Theorem handlePlayCommand_unbounded (backendUrl : string) (chatId : Z) (fuel : nat) :
  let run := BotPart000.handlePlayCommand backendUrl fuel chatId (emptyBackend (Num := Num)) in
  run.1 = OutOfFuel
  ∧ length (trace run.2) = (3 * fuel)%nat
  ∧ length (sentBodies (trace run.2)) = fuel.
Proof.
  unfold emptyBackend. rewrite handlePlayCommand_empty_round. simpl.
  split; [reflexivity|]. split.
  - induction fuel as [|fuel IH]; simpl in *; lia.
  - induction fuel as [|fuel IH]; simpl in *; [reflexivity|]. rewrite IH. reflexivity.
Qed.

(** The handler ends, by returning or by throwing, as soon as the
    backend has a game. *)
Lemma handlePlayCommand_returns_with_game (backendUrl : string) (chatId : Z) (fuel : nat)
    (w : World Num) (d : Response Num) (g : Game Num) :
  replies w (clock w) = Responds d → game d = Some g →
  (BotPart000.handlePlayCommand backendUrl (S fuel) chatId w).1 ≠ OutOfFuel.
Proof.
  intros Hreply Hgame. cbn [BotPart000.handlePlayCommand].
  unfold try_catch, bind, request, sendMessage, bind, request, ret, log.
  rewrite Hreply, Hgame. cbn -[String.append].
  destruct (replies w (S (clock w))); cbn -[String.append].
  - destruct (replies w (S (S (clock w)))); discriminate.
  - discriminate.
Qed.

(** The play handler of the second variant does not call itself:
    against the backend without a game it returns after three calls. *)
Lemma handlePlayCommand_second_variant_returns (chatId : Z) :
  let run := TelegramBot.handlePlayCommand (λ _ _, ret ()) chatId (emptyBackend (Num := Num)) in
  run.1 = Done () ∧ length (trace run.2) = 3%nat.
Proof. split; reflexivity. Qed.

(** *** The winner notification *)

Lemma youWon_not_opponentWon (a b : Num) (u : option string) :
  BotPart000.youWonText a ≠ BotPart000.opponentWonText u b.
Proof.
  unfold BotPart000.youWonText, BotPart000.opponentWonText.
  rewrite <- !append_assoc. apply endings_differ.
Qed.

Lemma youWon_not_opponentWon_second (a b : Num) (u : option string) :
  TelegramBot.youWonText a ≠ TelegramBot.opponentWonText u b.
Proof.
  unfold TelegramBot.youWonText, TelegramBot.opponentWonText.
  rewrite <- !append_assoc. apply endings_differ.
Qed.

(** What a notification adds to the trace when its text is not empty:
    the message, and the log entry if sending it fails. *)
Lemma send_or_log (chatId : Z) (text : string) (markup : option Keyboard) (label : Action)
    (w : World Num) :
  sentBodies [label] = [] →
  let run := try_catch (sendMessage chatId text (Some "MarkdownV2") markup)
                       (λ _, log label) w in
  run.1 = Done ()
  ∧ ∃ rest, trace run.2 = (trace w ++ rest)%list ∧ sentBodies rest = [text].
Proof.
  intros Hlabel. unfold try_catch, sendMessage, bind, request, ret, log.
  destruct (replies w (clock w)); simpl.
  - split; [reflexivity|]. eexists. rewrite <- app_assoc. split; [reflexivity|].
    destruct label; try discriminate Hlabel; reflexivity.
  - split; [reflexivity|]. eexists. split; reflexivity.
Qed.

(** C5, as amended: the first variant congratulates exactly when the
    event's [userId] is the user id of the chat (and otherwise names the
    winner and the amount); the second variant decides by the flag
    [isWinner] of the notification and reads no user id. *)
Theorem winner_text_by_variant :
  (∀ (chatId : Z) (gameId : string) (data : BotPart000.EventData Num) (w : World Num)
     (amount : Num),
     BotPart000.ev_amount data = Some amount →
     let run := BotPart000.sendGameNotification chatId gameId "winner" data w in
     ∃ text rest,
       trace run.2 = (trace w ++ rest)%list ∧ sentBodies rest = [text]
       ∧ (text = BotPart000.youWonText amount
          ↔ BotPart000.ev_userId data = Some (BotPart000.getUserId chatId))
       ∧ (text = BotPart000.opponentWonText (BotPart000.ev_username data) amount
          ↔ BotPart000.ev_userId data ≠ Some (BotPart000.getUserId chatId)))
  ∧ (∀ (chatId : Z) (notification : TelegramBot.Notification Num) (w : World Num)
       (amount : Num),
       TelegramBot.type notification = "winner" →
       TelegramBot.n_amount notification = Some amount →
       let run := TelegramBot.sendGameNotification chatId notification w in
       ∃ text rest,
         trace run.2 = (trace w ++ rest)%list ∧ sentBodies rest = [text]
         ∧ (text = TelegramBot.youWonText amount
            ↔ TelegramBot.isWinner notification = true)
         ∧ (text = TelegramBot.opponentWonText (TelegramBot.winnerName notification) amount
            ↔ TelegramBot.isWinner notification = false)).
Proof.
  split.
  - intros chatId gameId data w amount Hamount run. subst run.
    unfold BotPart000.sendGameNotification, BotPart000.notificationContent.
    repeat (rewrite bool_decide_eq_false_2 by discriminate).
    rewrite (bool_decide_eq_true_2 ("winner" = "winner")) by reflexivity.
    rewrite Hamount.
    set (text := if bool_decide (BotPart000.ev_userId data = Some (BotPart000.getUserId chatId))
                 then BotPart000.youWonText amount
                 else BotPart000.opponentWonText (BotPart000.ev_username data) amount).
    assert (Hne : text ≠ "").
    { subst text. case_bool_decide;
        unfold BotPart000.youWonText, BotPart000.opponentWonText;
        rewrite append_cons; discriminate. }
    match goal with
    | |- context [try_catch ?body ?handler w] =>
        replace (try_catch body handler w)
          with (try_catch (sendMessage chatId text (Some "MarkdownV2")
                             (Some (mkKeyboard
                                      [[mkButton "🎮 Play Again" (CallbackData "main_menu")]])))
                          (λ _, log (ConsoleError "Notification error:")) w)
    end.
    2:{ unfold try_catch, bind, defined, ret at 1 2. cbn -[String.append sendMessage].
        fold text. rewrite (bool_decide_eq_false_2 _ Hne). reflexivity. }
    destruct (send_or_log chatId text
                (Some (mkKeyboard [[mkButton "🎮 Play Again" (CallbackData "main_menu")]]))
                (ConsoleError "Notification error:") w eq_refl) as [_ [rest [Htrace Hsent]]].
    exists text, rest. split; [exact Htrace|]. split; [exact Hsent|].
    subst text. case_bool_decide as Hid; split; split; intros Hx;
      try reflexivity; try assumption; try contradiction;
      exfalso; first [exact (youWon_not_opponentWon _ _ _ Hx)
                     |exact (youWon_not_opponentWon _ _ _ (eq_sym Hx))].
  - intros chatId notification w amount Htype Hamount run. subst run.
    unfold TelegramBot.sendGameNotification, TelegramBot.notificationContent.
    rewrite Htype.
    repeat (rewrite bool_decide_eq_false_2 by discriminate).
    rewrite (bool_decide_eq_true_2 ("winner" = "winner")) by reflexivity.
    rewrite Hamount.
    set (text := if TelegramBot.isWinner notification
                 then TelegramBot.youWonText amount
                 else TelegramBot.opponentWonText (TelegramBot.winnerName notification) amount).
    assert (Hne : text ≠ "").
    { subst text. destruct (TelegramBot.isWinner notification);
        unfold TelegramBot.youWonText, TelegramBot.opponentWonText;
        rewrite append_cons; discriminate. }
    match goal with
    | |- context [try_catch ?body ?handler w] =>
        replace (try_catch body handler w)
          with (try_catch (sendMessage chatId text (Some "MarkdownV2") (Some (mkKeyboard [])))
                          (λ _, log (LoggerError "Notification error:")) w)
    end.
    2:{ unfold try_catch, bind, defined, ret at 1 2. cbn -[String.append sendMessage].
        fold text. rewrite (bool_decide_eq_false_2 _ Hne). reflexivity. }
    destruct (send_or_log chatId text (Some (mkKeyboard []))
                (LoggerError "Notification error:") w eq_refl) as [_ [rest [Htrace Hsent]]].
    exists text, rest. split; [exact Htrace|]. split; [exact Hsent|].
    subst text. destruct (TelegramBot.isWinner notification); split; split; intros Hx;
      try reflexivity; try discriminate;
      exfalso; first [exact (youWon_not_opponentWon_second _ _ _ Hx)
                     |exact (youWon_not_opponentWon_second _ _ _ (eq_sym Hx))].
Qed.

(** *** Failures inside the handlers *)

(** A notification whose content is computed without recursion always
    returns: a failure of the content or of the sending is logged. *)
Lemma notify_returns (content : M Num (string * list (list Button))) (chatId : Z)
    (label : Action) (w : World Num) :
  (content w).1 ≠ OutOfFuel →
  (try_catch
     (c <~ content;;
      if bool_decide (c.1 = "") then ret ()
      else sendMessage chatId c.1 (Some "MarkdownV2") (Some (mkKeyboard c.2)))
     (λ _, log label) w).1 = Done ().
Proof.
  intros Hfuel. unfold try_catch, bind at 1.
  destruct (content w) as [[c|e|] w1]; simpl in *; [|reflexivity|contradiction].
  case_bool_decide; [reflexivity|].
  unfold sendMessage, bind, request, ret, log.
  destruct (replies w1 (clock w1)); reflexivity.
Qed.

Lemma notificationContent_ends (chatId : Z) (gameId type : string)
    (data : BotPart000.EventData Num) (w : World Num) :
  (BotPart000.notificationContent chatId gameId type data w).1 ≠ OutOfFuel.
Proof.
  unfold BotPart000.notificationContent.
  repeat case_bool_decide; try discriminate;
    destruct (BotPart000.ev_amount data); discriminate.
Qed.

Lemma notificationContent_second_ends (notification : TelegramBot.Notification Num)
    (w : World Num) :
  (TelegramBot.notificationContent notification w).1 ≠ OutOfFuel.
Proof.
  unfold TelegramBot.notificationContent.
  repeat case_bool_decide; try discriminate.
  - destruct (TelegramBot.n_gameId notification); discriminate.
  - destruct (TelegramBot.n_amount notification); discriminate.
Qed.




(** *** Buying a card from the keyboard *)

Lemma split_buy_card (rest : string) :
  split "_" ("buy_card_" +:+ rest) = "buy" :: "card" :: split "_" rest.
Proof.
  repeat rewrite append_cons. change ("" +:+ rest) with rest.
  cbn [split Ascii.eqb Bool.eqb]. destruct (split "_" rest); reflexivity.
Qed.

Lemma parseInt_not_string (x : option string) (s : string) : parseInt x ≠ JsStr s.
Proof.
  destruct x as [t|]; [|discriminate].
  unfold parseInt, parseInt_string.
  destruct (skip_spaces t) as [|c r]; [discriminate|].
  repeat match goal with
         | |- context [match ?v with _ => _ end] => destruct v
         end; discriminate.
Qed.

Lemma dispatch_buy_card (backendUrl : string) (m : BotPart000.Methods (Num := Num))
    (chatId : Z) (rest : string) :
  BotPart000.dispatch backendUrl m chatId ("buy_card_" +:+ rest)
  = BotPart000.buyCard backendUrl chatId (Some "card") (parseInt (split "_" rest !! 0%nat)).
Proof.
  unfold BotPart000.dispatch. rewrite split_buy_card.
  replace (startsWith ("buy_card_" +:+ rest) "join_game_") with false
    by (repeat rewrite append_cons; reflexivity).
  replace (startsWith ("buy_card_" +:+ rest) "buy_card_") with true
    by (repeat rewrite append_cons; change ("" +:+ rest) with rest;
        destruct rest; reflexivity).
  reflexivity.
Qed.

(** The handler after a callback query with a chat and data has been
    answered: the dispatch, guarded. *)
Lemma onCallbackQuery_answered (backendUrl : string) (m : BotPart000.Methods (Num := Num))
    (cq : BotPart000.CallbackQuery) (chatId : Z) (data : string) (w : World Num)
    (d : Response Num) :
  BotPart000.cq_chat cq = Some chatId →
  BotPart000.cq_data cq = Some data →
  replies w (clock w) = Responds d →
  BotPart000.onCallbackQuery backendUrl m cq w
  = try_catch (BotPart000.dispatch backendUrl m chatId data)
      (λ _, log (ConsoleError "Callback error:");;;
            sendMessage chatId "❌ Error processing request." None None)
      (mkWorld (replies w) (S (clock w))
               (trace w ++ [AnswerCallbackQuery (BotPart000.cq_id cq)])).
Proof.
  intros Hchat Hdata Hreply.
  unfold BotPart000.onCallbackQuery, BotPart000.callbackBody. rewrite Hchat, Hdata.
  unfold try_catch, bind, request, defined, ret. rewrite Hreply. reflexivity.
Qed.

(** C9: [buyCard] by itself posts [null] for the selection [random]
    and the number for a chosen number, with the same user and chat ids;
    but the callback handler hands it neither: for the data
    [buy_card_<gameId>_<selection>] of the card keyboard it passes the
    word [card] as the game and the parse of the first piece of the game
    id as the card number, so that the selection never reaches the
    request. *)
Theorem buy_card_callback_loses_selection (backendUrl : string) :
  (∀ (chatId n : Z),
     cardNumber (BotPart000.buyCardBody chatId (JsStr "random")) = JsNull
     ∧ cardNumber (BotPart000.buyCardBody chatId (JsInt n)) = JsInt n
     ∧ userId (BotPart000.buyCardBody chatId (JsStr "random"))
       = userId (BotPart000.buyCardBody chatId (JsInt n))
     ∧ telegramChatId (BotPart000.buyCardBody chatId (JsStr "random"))
       = telegramChatId (BotPart000.buyCardBody chatId (JsInt n)))
  ∧ (∀ (m : BotPart000.Methods (Num := Num)) (chatId : Z) (rest : string),
       BotPart000.dispatch backendUrl m chatId ("buy_card_" +:+ rest)
       = BotPart000.buyCard backendUrl chatId (Some "card")
           (parseInt (split "_" rest !! 0%nat)))
  ∧ (∀ (chatId : Z) (x : option string),
       cardNumber (BotPart000.buyCardBody chatId (parseInt x)) = parseInt x
       ∧ parseInt x ≠ JsStr "random")
  ∧ (∀ (m : BotPart000.Methods (Num := Num)) (chatId : Z) (selection : string),
       let query := BotPart000.mkCallbackQuery "q" (Some chatId)
                      (Some ("buy_card_g1_" +:+ selection)) in
       let run := BotPart000.onCallbackQuery backendUrl m query emptyBackend in
       run.1 = Done ()
       ∧ trace run.2
         = [AnswerCallbackQuery "q";
            HttpPostBuyCard (backendUrl +:+ "/api/games/card/buy-card")
              (mkBuyCardBody (BotPart000.getUserId chatId) JsNaN chatId);
            SendMessage (mkMessage chatId "❌ undefined" None None)]).
Proof.
  split; [|split; [|split]].
  - intros chatId n. repeat split; reflexivity.
  - intros m chatId rest. apply dispatch_buy_card.
  - intros chatId x. split; [|apply parseInt_not_string].
    unfold BotPart000.buyCardBody. simpl.
    rewrite bool_decide_eq_false_2 by apply parseInt_not_string. reflexivity.
  - intros m chatId selection query run. subst run query.
    rewrite (onCallbackQuery_answered backendUrl m
               (BotPart000.mkCallbackQuery "q" (Some chatId)
                  (Some ("buy_card_g1_" +:+ selection)))
               chatId ("buy_card_g1_" +:+ selection) emptyBackend noGame
               eq_refl eq_refl eq_refl).
    change ("buy_card_g1_" +:+ selection) with ("buy_card_" +:+ ("g1_" +:+ selection)).
    rewrite dispatch_buy_card.
    replace (split "_" ("g1_" +:+ selection) !! 0%nat) with (Some "g1")
      by (repeat rewrite append_cons; change ("" +:+ selection) with selection;
          cbn [split Ascii.eqb Bool.eqb]; destruct (split "_" selection); reflexivity).
    split; reflexivity.
Qed.

End BotClaims.

(** ** The claims on sample inputs *)

(** The middle row of the sample card, once its four numbers are
    called, is the first complete pattern. *)
Example middle_row_detected :
  detectWin sampleCardMiddleRow = Some (Row 2) ∧ detectWin sampleCard = None.
Proof. split; reflexivity. Qed.

Example sampleCard_text :
  formatRow sampleCard 2 = Some "3 | B07  I22  FREE  G52  O67 ".
Proof. reflexivity. Qed.

(** The sample card wins once its middle row is called, not before. *)
Lemma win_iff_pattern_complete_witness :
  wins sampleCardMiddleRow = true ∧ wins sampleCard = false.
Proof.
  split.
  - apply (proj1 (win_iff_pattern_complete sampleDraw) sampleCardMiddleRow).
    left. exists 2. split; [lia|].
    intros c Hc. destruct c as [|[|[|[|[|c]]]]]; [reflexivity..|lia].
  - apply (proj2 (win_iff_pattern_complete sampleDraw) 4%Z sampleRanges "game-1").
Defined.

(** Calling B7 marks the cell B7 of the sample card. *)
Lemma applyCalledNumber_idempotent_witness :
  getCell sampleCard 2 0 = Some (mkCell "B" (Some 7%Z) false false)
  ∧ ∃ cell', getCell (applyCalledNumber sampleCard "B" 7) 2 0 = Some cell'
             ∧ called cell' = true.
Proof.
  split; [reflexivity|].
  destruct (proj2 (proj2 (proj2 (proj2 (applyCalledNumber_idempotent sampleCard "B" 7))))
              2 0 (mkCell "B" (Some 7%Z) false false) eq_refl)
    as [cell' [Hcell [_ [_ [_ Hcalled]]]]].
  exists cell'. split; [exact Hcell|]. rewrite Hcalled. reflexivity.
Defined.

(** The sample card is printed, with FREE in its centre; the broken
    grid is not. *)
Lemma buildCard_center_free_witness :
  formatCardAsText sampleCard
  = Some ("     B    I    N    G    O" +:+ nl
          +:+ "   ─────────────────────────" +:+ nl
          +:+ "1 | B05  I20  N35  G50  O65 " +:+ nl
          +:+ "2 | B06  I21  N36  G51  O66 " +:+ nl
          +:+ "3 | B07  I22  FREE  G52  O67 " +:+ nl
          +:+ "4 | B08  I23  N38  G53  O68 " +:+ nl
          +:+ "5 | B09  I24  N39  G54  O69 " +:+ nl)
  ∧ formatCardAsText brokenCard = None.
Proof.
  split.
  - destruct (proj1 (buildCard_center_free sampleDraw) 4%Z sampleRanges "game-1")
      as (_ & _ & _ & _ & Htext).
    exact Htext.
  - apply (proj2 (buildCard_center_free sampleDraw) brokenCard 0 0
             (mkCell "B" None false false)); [lia|lia|reflexivity..].
Defined.

(** Four calls and the FREE centre: five marked cells. *)
Lemma markedCount_counts_called_witness :
  is5x5 sampleCardMiddleRow ∧ markedCount sampleCardMiddleRow = 5.
Proof.
  assert (H5 : is5x5 sampleCardMiddleRow) by (split; [reflexivity|repeat constructor]).
  split; [exact H5|].
  rewrite (proj1 (markedCount_counts_called sampleCardMiddleRow H5)). reflexivity.
Defined.

(** A claim emitted offline goes nowhere; online it reaches the socket. *)
Lemma emit_only_when_connected_witness :
  Web.emitted (Web.emit "claimBingo" 9%Z offlinePage) = []
  ∧ Web.emitted (Web.emit "claimBingo" 9%Z onlinePage) = [(1%nat, "claimBingo", 9%Z)].
Proof.
  split.
  - apply (proj1 (proj2 (emit_only_when_connected "claimBingo" 9%Z offlinePage))).
    left. reflexivity.
  - apply (proj2 (proj2 (emit_only_when_connected "claimBingo" 9%Z onlinePage)) 1%nat);
      reflexivity.
Defined.

(** Three events, two of them replays, leave the marking of the sample
    room as it is and show three toasts. *)
Lemma numberCalled_keeps_marking_witness :
  let e := Web.mkNumberCalled (Some 7%Z) (Some 1%Z) in
  let replay := Web.mkNumberCalled (Some 7%Z) (Some 0%Z) in
  Web.markingState (Web.receiveAll [e; e; replay] sampleRoom) = Web.markingState sampleRoom
  ∧ Web.onNumberCalled e sampleRoom = Web.onNumberCalled replay sampleRoom
  ∧ Web.toasts (Web.receiveAll [e; e; replay] sampleRoom)
    = (Web.toasts sampleRoom
       ++ [Web.mkToast "Number called: 7" "🎯" "top-center";
           Web.mkToast "Number called: 7" "🎯" "top-center";
           Web.mkToast "Number called: 7" "🎯" "top-center"])%list.
Proof.
  cbv zeta. split; [|split].
  - apply (numberCalled_keeps_marking _ sampleRoom).
  - apply (proj1 (proj2 (proj2 (numberCalled_keeps_marking [] sampleRoom)))). reflexivity.
  - exact (proj1 (proj2 (proj2 (proj2
             (numberCalled_keeps_marking
                [Web.mkNumberCalled (Some 7%Z) (Some 1%Z);
                 Web.mkNumberCalled (Some 7%Z) (Some 1%Z);
                 Web.mkNumberCalled (Some 7%Z) (Some 0%Z)] sampleRoom))))).
Defined.

(** The congratulation: for the user of the chat in the first variant,
    for the flagged notification in the second. *)
Lemma winner_text_by_variant_witness :
  (∃ text rest,
     Effects.trace (BotPart000.sendGameNotification 42 "game-1" "winner" ownWin
                      Effects.emptyBackend).2 = ([] ++ rest)%list
     ∧ Effects.sentBodies rest = [text]
     ∧ text = BotPart000.youWonText 50%Z)
  ∧ (∃ text rest,
       Effects.trace (TelegramBot.sendGameNotification 42 flaggedWin
                        Effects.emptyBackend).2 = ([] ++ rest)%list
       ∧ Effects.sentBodies rest = [text]
       ∧ text = TelegramBot.youWonText 50%Z).
Proof.
  split.
  - destruct (proj1 winner_text_by_variant 42%Z "game-1" ownWin Effects.emptyBackend 50%Z
                eq_refl) as [text [rest [Htrace [Hsent [Hown _]]]]].
    exists text, rest. split; [exact Htrace|]. split; [exact Hsent|].
    apply Hown. reflexivity.
  - destruct (proj2 winner_text_by_variant 42%Z flaggedWin Effects.emptyBackend 50%Z
                eq_refl eq_refl) as [text [rest [Htrace [Hsent [Hflag _]]]]].
    exists text, rest. split; [exact Htrace|]. split; [exact Hsent|].
    apply Hflag. reflexivity.
Defined.


(** C5, as stated, fails on the second variant: the winner event of the
    contract, for the very user of the chat, yields the opponent text with
    no name, and a notification flagged as a win yields the
    congratulation although it names another user. *)
Lemma winner_flag_not_userId :
  TelegramBot.sessionUserId sampleSessions 42 = Some "u1"
  ∧ TelegramBot.n_userId contractWin = Some "u1"
  ∧ Effects.sentBodies
      (Effects.trace (TelegramBot.sendGameNotification 42 contractWin Effects.emptyBackend).2)
    = [TelegramBot.opponentWonText None 50%Z]
  ∧ TelegramBot.n_userId flaggedWin = Some "u2"
  ∧ Effects.sentBodies
      (Effects.trace (TelegramBot.sendGameNotification 42 flaggedWin Effects.emptyBackend).2)
    = [TelegramBot.youWonText 50%Z].
Proof. repeat split; vm_compute; reflexivity. Qed.


(** The two presses of the card keyboard, on card 42 and on the random
    card, lead to the same request: for the game [card], with no number. *)
Example buy_card_presses_coincide :
  let press selection :=
    Effects.trace
      (BotPart000.onCallbackQuery "http://localhost:5000" idleMethods
         (BotPart000.mkCallbackQuery "q" (Some 42%Z) (Some ("buy_card_g1_" +:+ selection)))
         Effects.emptyBackend).2 in
  press "42" = press "random"
  ∧ press "42" !! 1%nat
    = Some (Effects.HttpPostBuyCard "http://localhost:5000/api/games/card/buy-card"
              (Effects.mkBuyCardBody "telegram_42" Js.JsNaN 42)).
Proof. split; vm_compute; reflexivity. Qed.

(** * Further properties *)

(** ** Printing and parsing integers *)

Ltac read_digit :=
  cbn [NilEmpty.string_of_uint Js.read_digits];
  match goal with
  | |- context [Js.digit_value 10 ?c] =>
      let v := eval vm_compute in (Js.digit_value 10 c) in
      change (Js.digit_value 10 c) with v
  end;
  cbv iota.

(** Reading the digits of a decimal number after a positive value. *)
Lemma read_digits_acc (d : Decimal.uint) (acc : positive) :
  Js.read_digits 10 (NilEmpty.string_of_uint d) (Z.pos acc) true
  = Some (Z.pos (Pos.of_uint_acc d acc)).
Proof.
  revert acc.
  induction d as [|d IH|d IH|d IH|d IH|d IH|d IH|d IH|d IH|d IH|d IH]; intros acc;
    [reflexivity|..]; read_digit; cbn [Pos.of_uint_acc];
    match goal with
    | |- Js.read_digits 10 _ ?v true = _ =>
        match goal with
        | |- _ = Some (Z.pos (Pos.of_uint_acc _ ?a)) =>
            replace v with (Z.pos a) by (rewrite ?Pos2Z.inj_add, ?Pos2Z.inj_mul; lia)
        end
    end; apply IH.
Qed.

(** Reading the digits of a decimal number from zero. *)
Lemma read_digits_zero (d : Decimal.uint) (seen : bool) :
  Js.read_digits 10 (NilEmpty.string_of_uint d) 0 seen
  = match d with
    | Decimal.Nil => if seen then Some 0%Z else None
    | _ => Some (Z.of_uint d)
    end.
Proof.
  revert seen.
  induction d as [|d IH|d IH|d IH|d IH|d IH|d IH|d IH|d IH|d IH|d IH]; intros seen;
    [reflexivity|..]; read_digit.
  - change (0 * 10 + 0)%Z with 0%Z. rewrite IH. destruct d; reflexivity.
  - apply (read_digits_acc d 1).
  - apply (read_digits_acc d 2).
  - apply (read_digits_acc d 3).
  - apply (read_digits_acc d 4).
  - apply (read_digits_acc d 5).
  - apply (read_digits_acc d 6).
  - apply (read_digits_acc d 7).
  - apply (read_digits_acc d 8).
  - apply (read_digits_acc d 9).
Qed.

Ltac not_a_space :=
  match goal with
  | |- context [Js.is_space ?c] =>
      let v := eval vm_compute in (Js.is_space c) in
      change (Js.is_space c) with v
  end;
  cbv iota.

(** A decimal number is parsed as its value. *)
Lemma parseInt_uint (d : Decimal.uint) :
  d ≠ Decimal.Nil → Js.parseInt_string (NilEmpty.string_of_uint d) = Js.JsInt (Z.of_uint d).
Proof.
  intros Hd. pose proof (read_digits_zero d false) as Hread.
  destruct d as [|d|d|d|d|d|d|d|d|d|d]; [contradiction|..];
    unfold Js.parseInt_string; cbn [NilEmpty.string_of_uint Js.skip_spaces] in *;
    not_a_space; [destruct d; cbn [NilEmpty.string_of_uint] in *|..];
    rewrite Hread, Z.mul_1_l; reflexivity.
Qed.

(** [parseInt(n.toString())] is [n]. *)
Lemma parseInt_toString (n : Z) : Js.parseInt_string (toString n) = Js.JsInt n.
Proof.
  destruct n as [|p|p]; [reflexivity|..].
  - unfold toString. cbn [Z.to_int NilZero.string_of_int].
    pose proof (DecimalPos.Unsigned.to_uint_nonnil p) as Hnonnil.
    pose proof (DecimalZ.of_to (Z.pos p)) as Hof. cbn [Z.to_int Z.of_int] in Hof.
    rewrite <- Hof. rewrite <- (parseInt_uint _ Hnonnil).
    unfold NilZero.string_of_uint. destruct (Pos.to_uint p); [contradiction|..]; reflexivity.
  - unfold toString. cbn [Z.to_int NilZero.string_of_int].
    pose proof (DecimalPos.Unsigned.to_uint_nonnil p) as Hnonnil.
    pose proof (DecimalZ.of_to (Z.pos p)) as Hof. cbn [Z.to_int Z.of_int] in Hof.
    pose proof (read_digits_zero (Pos.to_uint p) false) as Hread.
    assert (Hs : NilZero.string_of_uint (Pos.to_uint p)
                 = NilEmpty.string_of_uint (Pos.to_uint p))
      by (unfold NilZero.string_of_uint; destruct (Pos.to_uint p); [contradiction|..];
          reflexivity).
    rewrite Hs. unfold Js.parseInt_string.
    change (Js.skip_spaces (String "-" (NilEmpty.string_of_uint (Pos.to_uint p))))
      with (String "-" (NilEmpty.string_of_uint (Pos.to_uint p))).
    cbv iota beta.
    destruct (Pos.to_uint p) as [|d|d|d|d|d|d|d|d|d|d]; [contradiction|..];
      cbn [NilEmpty.string_of_uint] in *;
      [destruct d; cbn [NilEmpty.string_of_uint] in *|..];
      rewrite Hread, Hof; reflexivity.
Qed.

(** Printing integers is injective. *)
Lemma toString_injective (a b : Z) : toString a = toString b → a = b.
Proof.
  intros Heq. apply (f_equal Js.parseInt_string) in Heq.
  rewrite !parseInt_toString in Heq. congruence.
Qed.

(** The characters of a printed integer: no underscore. *)
Lemma uint_no_underscore (d : Decimal.uint) :
  has_char "_" (NilEmpty.string_of_uint d) = false.
Proof. induction d; simpl; auto. Qed.

Lemma toString_no_underscore (n : Z) : has_char "_" (toString n) = false.
Proof.
  unfold toString.
  destruct n as [|p|p]; [reflexivity|..]; cbn [Z.to_int NilZero.string_of_int];
    unfold NilZero.string_of_uint;
    pose proof (uint_no_underscore (Pos.to_uint p)) as Hu;
    destruct (Pos.to_uint p); simpl in *; auto.
Qed.

(** ** User ids *)

(** X1: two different chats never get the same user id. *)
Theorem getUserId_injective (a b : Z) :
  a ≠ b → BotPart000.getUserId a ≠ BotPart000.getUserId b.
Proof.
  intros Hne Heq. apply Hne. unfold BotPart000.getUserId in Heq.
  apply String.app_inj in Heq. apply toString_injective. exact Heq.
Qed.

Lemma getUserId_injective_witness : BotPart000.getUserId 42 ≠ BotPart000.getUserId (-42).
Proof. apply (getUserId_injective 42 (-42)). lia. Defined.

(** The user ids of two different chats differ. *)
Lemma getUserId_id_differs (a b : Z) : a ≠ b → BotPart000.getUserId a = BotPart000.getUserId b → False.
Proof.
  intros Hne Heq. apply Hne. unfold BotPart000.getUserId in Heq.
  apply String.app_inj in Heq. apply toString_injective. exact Heq.
Qed.

(** ** Notifications *)

Section NotificationFacts.
Import Js Effects.
Context {Num : Type} `{JsNumber Num}.

(** What a notification does, by the outcome of its content: nothing
    for an empty text; one message, and a log entry if the sending fails;
    only a log entry when the content cannot be built. *)
Lemma notify_trace (content : M Num (string * list (list Button))) (chatId : Z)
    (label : Action) (w : World Num) :
  (content w).2 = w →
  let run := try_catch
               (c <~ content;;
                if bool_decide (c.1 = "") then ret ()
                else sendMessage chatId c.1 (Some "MarkdownV2") (Some (mkKeyboard c.2)))
               (λ _, log label) w in
  replies run.2 = replies w
  ∧ match (content w).1 with
    | Done c =>
        if bool_decide (c.1 = "") then run.2 = w
        else
          let m := SendMessage (mkMessage chatId c.1 (Some "MarkdownV2")
                                          (Some (mkKeyboard c.2))) in
          clock run.2 = S (clock w)
          ∧ trace run.2
            = (trace w ++ match replies w (clock w) with
                          | Fails => [m; label]
                          | Responds _ => [m]
                          end)%list
    | Thrown _ => clock run.2 = clock w ∧ trace run.2 = (trace w ++ [label])%list
    | OutOfFuel => run.2 = w
    end.
Proof.
  intros Hpure run. subst run. cbv [try_catch bind sendMessage].
  destruct (content w) as [[c|e|] w1]; simpl in Hpure; subst w1; simpl.
  - case_bool_decide; [split; reflexivity|].
    unfold request, ret, log.
    destruct (replies w (clock w)); simpl; rewrite <- ?app_assoc; repeat split; reflexivity.
  - repeat split; reflexivity.
  - split; reflexivity.
Qed.

Lemma notificationContent_pure (chatId : Z) (gameId type : string)
    (data : BotPart000.EventData Num) (w : World Num) :
  (BotPart000.notificationContent chatId gameId type data w).2 = w.
Proof.
  unfold BotPart000.notificationContent.
  repeat case_bool_decide; try reflexivity;
    destruct (BotPart000.ev_amount data); reflexivity.
Qed.

Lemma notificationContent_second_pure (notification : TelegramBot.Notification Num)
    (w : World Num) :
  (TelegramBot.notificationContent notification w).2 = w.
Proof.
  unfold TelegramBot.notificationContent.
  repeat case_bool_decide; try reflexivity;
    first [destruct (TelegramBot.n_gameId notification); reflexivity
          |destruct (TelegramBot.n_amount notification); reflexivity].
Qed.

(** A printable event has a text, and the text is not empty. *)
Lemma printable_content (chatId : Z) (gameId type : string)
    (data : BotPart000.EventData Num) (w : World Num) :
  BotViews.printable type data = true →
  ∃ c, BotPart000.notificationContent chatId gameId type data w = (Done c, w) ∧ c.1 ≠ "".
Proof.
  unfold BotViews.printable, BotViews.knownType. intros Hp.
  apply andb_true_iff in Hp as [Hknown Hamount].
  unfold BotPart000.notificationContent.
  repeat (apply orb_true_iff in Hknown as [Hknown|Hknown]);
    apply bool_decide_eq_true in Hknown; subst type;
    repeat (rewrite bool_decide_eq_false_2 by discriminate);
    rewrite ?bool_decide_eq_true_2 by reflexivity.
  6:{ eexists. split; [reflexivity|]. simpl. rewrite append_cons. discriminate. }
  5:{ rewrite bool_decide_eq_true_2 in Hamount by reflexivity. simpl in Hamount.
      destruct (BotPart000.ev_amount data) as [amount|]; [|discriminate].
      eexists. split; [reflexivity|]. simpl.
      case_bool_decide; unfold BotPart000.youWonText, BotPart000.opponentWonText;
        rewrite append_cons; discriminate. }
  all: eexists; (split; [reflexivity|]); simpl; rewrite append_cons; discriminate.
Qed.

Lemma notificationContent_unknown (chatId : Z) (gameId type : string)
    (data : BotPart000.EventData Num) (w : World Num) :
  BotViews.knownType type = false →
  BotPart000.notificationContent chatId gameId type data w = (Done ("", []), w).
Proof.
  intros Hk. unfold BotPart000.notificationContent. unfold BotViews.knownType in Hk.
  repeat (apply orb_false_iff in Hk as [Hk ?]).
  repeat match goal with
         | Hb : bool_decide _ = false |- _ => apply bool_decide_eq_false in Hb
         end.
  repeat (rewrite bool_decide_eq_false_2 by assumption).
  reflexivity.
Qed.

Lemma notificationContent_no_amount (chatId : Z) (gameId : string)
    (data : BotPart000.EventData Num) (w : World Num) :
  BotPart000.ev_amount data = None →
  BotPart000.notificationContent chatId gameId "winner" data w = (Thrown TypeError, w).
Proof.
  intros Hnone. unfold BotPart000.notificationContent.
  repeat (rewrite bool_decide_eq_false_2 by discriminate).
  rewrite bool_decide_eq_true_2 by reflexivity. rewrite Hnone. reflexivity.
Qed.

(** X2: a notification of the first variant sends at most one message,
    to its own chat, and calls the backend never; a type it does not know
    leaves no trace at all, and a winner without an amount leaves only the
    log entry. *)
Theorem sendGameNotification_one_message (chatId : Z) (gameId type : string)
    (data : BotPart000.EventData Num) (w : World Num) :
  let run := BotPart000.sendGameNotification chatId gameId type data w in
  ∃ rest,
    trace run.2 = (trace w ++ rest)%list
    ∧ (length (sentBodies rest) ≤ 1)%nat
    ∧ (∀ c, In c (recipients rest) → c = chatId)
    ∧ backendCalls rest = []
    ∧ (BotViews.knownType type = false → rest = [])
    ∧ (BotViews.printable type data = true → recipients rest = [chatId])
    ∧ (type = "winner" → BotPart000.ev_amount data = None →
       rest = [ConsoleError "Notification error:"]).
Proof.
  intros run. subst run. unfold BotPart000.sendGameNotification.
  pose proof (notify_trace (BotPart000.notificationContent chatId gameId type data) chatId
                (ConsoleError "Notification error:") w
                (notificationContent_pure chatId gameId type data w)) as [_ Hrun].
  cbv zeta in Hrun.
  pose proof (notificationContent_unknown chatId gameId type data w) as Hunknown.
  assert (Hnoamount : type = "winner" → BotPart000.ev_amount data = None →
                      BotPart000.notificationContent chatId gameId type data w
                      = (Thrown TypeError, w))
    by (intros -> Hnone; apply notificationContent_no_amount; exact Hnone).
  pose proof (printable_content chatId gameId type data w) as Hprintable.
  pose proof (notificationContent_ends chatId gameId type data w) as Hends.
  destruct (BotPart000.notificationContent chatId gameId type data w) as [[c|e|] w1];
    simpl in Hrun.
  - destruct (bool_decide (c.1 = "")) eqn:Hempty.
    + rewrite Hrun. exists []. rewrite app_nil_r.
      split; [reflexivity|]. split; [simpl; lia|]. split; [intros ? []|].
      split; [reflexivity|]. split; [reflexivity|]. split.
      * intros Hp. destruct (Hprintable Hp) as [c' [Hc' Hne]].
        injection Hc' as -> _. apply bool_decide_eq_true in Hempty. contradiction.
      * intros Hw Hnone. discriminate (Hnoamount Hw Hnone).
    + destruct Hrun as [_ Htrace]. eexists. split; [exact Htrace|].
      assert (Hknown : BotViews.knownType type = false → False).
      { intros Hk. specialize (Hunknown Hk). injection Hunknown as -> _. discriminate. }
      destruct (replies w (clock w)); simpl.
      * split; [lia|]. split; [intros c0 [<-|[]]; reflexivity|]. split; [reflexivity|].
        split; [intros Hk; destruct (Hknown Hk)|]. split; [reflexivity|].
        intros Hw Hnone. discriminate (Hnoamount Hw Hnone).
      * split; [lia|]. split; [intros c0 [<-|[]]; reflexivity|]. split; [reflexivity|].
        split; [intros Hk; destruct (Hknown Hk)|]. split; [reflexivity|].
        intros Hw Hnone. discriminate (Hnoamount Hw Hnone).
  - destruct Hrun as [_ Htrace]. eexists. split; [exact Htrace|]. simpl.
    split; [lia|]. split; [intros ? []|]. split; [reflexivity|].
    split; [intros Hk; discriminate (Hunknown Hk)|].
    split; [|reflexivity].
    intros Hp. destruct (Hprintable Hp) as [c' [Hc' _]]. discriminate Hc'.
  - exfalso. apply Hends. reflexivity.
Qed.

(** X3: a winner event for the user of one chat, delivered to another
    chat, is announced there as somebody else's win: the text sent names
    the winner and never congratulates. *)
Theorem winner_elsewhere_not_congratulated (winnerChat chatId : Z) (gameId : string)
    (data : BotPart000.EventData Num) (amount : Num) (w : World Num) :
  winnerChat ≠ chatId →
  BotPart000.ev_userId data = Some (BotPart000.getUserId winnerChat) →
  BotPart000.ev_amount data = Some amount →
  let run := BotPart000.sendGameNotification chatId gameId "winner" data w in
  ∃ rest,
    trace run.2 = (trace w ++ rest)%list
    ∧ sentBodies rest = [BotPart000.opponentWonText (BotPart000.ev_username data) amount]
    ∧ ∀ a, ¬ In (BotPart000.youWonText a) (sentBodies rest).
Proof.
  intros Hne Huser Hamount run. subst run. unfold BotPart000.sendGameNotification.
  pose proof (notify_trace (BotPart000.notificationContent chatId gameId "winner" data) chatId
                (ConsoleError "Notification error:") w
                (notificationContent_pure chatId gameId "winner" data w)) as [_ Hrun].
  cbv zeta in Hrun.
  assert (Hc : BotPart000.notificationContent chatId gameId "winner" data w
               = (Done (BotPart000.opponentWonText (BotPart000.ev_username data) amount,
                        [[mkButton "🎮 Play Again" (CallbackData "main_menu")]]), w)).
  { unfold BotPart000.notificationContent.
    repeat (rewrite bool_decide_eq_false_2 by discriminate).
    rewrite (bool_decide_eq_true_2 ("winner" = "winner")) by reflexivity.
    rewrite Hamount, Huser.
    rewrite bool_decide_eq_false_2; [reflexivity|].
    intros Heq. apply (inj Some) in Heq.
    exact (getUserId_id_differs winnerChat chatId Hne Heq). }
  rewrite Hc in Hrun. simpl in Hrun.
  rewrite ?bool_decide_eq_false_2 in Hrun
    by (unfold BotPart000.opponentWonText; rewrite append_cons; discriminate).
  destruct Hrun as [_ Htrace]. eexists. split; [exact Htrace|].
  destruct (replies w (clock w)); simpl;
    (split; [reflexivity|]; intros a [Heq|[]];
     exact (youWon_not_opponentWon _ _ _ (eq_sym Heq))).
Qed.

(** X4: a notification of the second variant sends at most one message,
    to its own chat; it is silent for every type but [game_starting],
    [number_called] and [winner], and a [game_starting] without a game id
    leaves only the log entry. *)
Theorem sendGameNotification_second_one_message (chatId : Z)
    (notification : TelegramBot.Notification Num) (w : World Num) :
  let run := TelegramBot.sendGameNotification chatId notification w in
  ∃ rest,
    trace run.2 = (trace w ++ rest)%list
    ∧ (length (sentBodies rest) ≤ 1)%nat
    ∧ (∀ c, In c (recipients rest) → c = chatId)
    ∧ (TelegramBot.type notification ≠ "game_starting" →
       TelegramBot.type notification ≠ "number_called" →
       TelegramBot.type notification ≠ "winner" → rest = [])
    ∧ (TelegramBot.type notification = "game_starting" →
       TelegramBot.n_gameId notification = None →
       rest = [LoggerError "Notification error:"]).
Proof.
  intros run. subst run. unfold TelegramBot.sendGameNotification.
  pose proof (notify_trace (TelegramBot.notificationContent notification) chatId
                (LoggerError "Notification error:") w
                (notificationContent_second_pure notification w)) as [_ Hrun].
  cbv zeta in Hrun.
  assert (Hother : TelegramBot.type notification ≠ "game_starting" →
                   TelegramBot.type notification ≠ "number_called" →
                   TelegramBot.type notification ≠ "winner" →
                   TelegramBot.notificationContent notification w = (Done ("", []), w)).
  { intros H1 H2 H3. unfold TelegramBot.notificationContent.
    repeat (rewrite bool_decide_eq_false_2 by assumption). reflexivity. }
  assert (Hnoid : TelegramBot.type notification = "game_starting" →
                  TelegramBot.n_gameId notification = None →
                  TelegramBot.notificationContent notification w = (Thrown TypeError, w)).
  { intros Ht Hnone. unfold TelegramBot.notificationContent. rewrite Ht, Hnone.
    rewrite bool_decide_eq_true_2 by reflexivity. reflexivity. }
  pose proof (notificationContent_second_ends notification w) as Hends.
  destruct (TelegramBot.notificationContent notification w) as [[c|e|] w1]; simpl in Hrun.
  - destruct (bool_decide (c.1 = "")) eqn:Hempty.
    + rewrite Hrun. exists []. rewrite app_nil_r.
      split; [reflexivity|]. split; [simpl; lia|]. split; [intros ? []|].
      split; [reflexivity|]. intros Ht Hnone. discriminate (Hnoid Ht Hnone).
    + destruct Hrun as [_ Htrace]. eexists. split; [exact Htrace|].
      destruct (replies w (clock w)); simpl;
        (split; [lia|]; split; [intros c0 [<-|[]]; reflexivity|]; split;
         [intros H1 H2 H3; specialize (Hother H1 H2 H3); injection Hother as -> _;
          discriminate
         |intros Ht Hnone; discriminate (Hnoid Ht Hnone)]).
  - destruct Hrun as [_ Htrace]. eexists. split; [exact Htrace|]. simpl.
    split; [lia|]. split; [intros ? []|]. split; [|reflexivity].
    intros H1 H2 H3. discriminate (Hother H1 H2 H3).
  - exfalso. apply Hends. reflexivity.
Qed.

End NotificationFacts.

(** ** Broadcasting *)

Section BroadcastFacts.
Import Js Effects.
Context {Num : Type} `{JsNumber Num}.

(** One notification inside a broadcast: it returns, asks the backend
    nothing, and writes to no chat but its own. *)
Lemma sendGameNotification_step (chatId : Z) (gameId type : string)
    (data : BotPart000.EventData Num) (w : World Num) :
  let run := BotPart000.sendGameNotification chatId gameId type data w in
  run.1 = Done ()
  ∧ ∃ rest,
      trace run.2 = (trace w ++ rest)%list
      ∧ backendCalls rest = []
      ∧ (BotViews.printable type data = true → recipients rest = [chatId])
      ∧ (∀ c, In c (recipients rest) → c = chatId).
Proof.
  intros run. subst run.
  split; [apply notify_returns, notificationContent_ends|].
  unfold BotPart000.sendGameNotification.
  pose proof (notify_trace (BotPart000.notificationContent chatId gameId type data) chatId
                (ConsoleError "Notification error:") w
                (notificationContent_pure chatId gameId type data w)) as [_ Hrun].
  cbv zeta in Hrun.
  pose proof (printable_content chatId gameId type data w) as Hprintable.
  pose proof (notificationContent_ends chatId gameId type data w) as Hends.
  destruct (BotPart000.notificationContent chatId gameId type data w) as [[c|e|] w1];
    simpl in Hrun.
  - destruct (bool_decide (c.1 = "")) eqn:Hempty.
    + rewrite Hrun. exists []. rewrite app_nil_r.
      split; [reflexivity|]. split; [reflexivity|]. split; [|intros ? []].
      intros Hp. destruct (Hprintable Hp) as [c' [Hc' Hne]].
      injection Hc' as -> _. apply bool_decide_eq_true in Hempty. contradiction.
    + destruct Hrun as [_ Htrace]. eexists. split; [exact Htrace|].
      destruct (replies w (clock w)); simpl;
        (split; [reflexivity|]; split; [reflexivity|]; intros c0 [<-|[]]; reflexivity).
  - destruct Hrun as [_ Htrace]. eexists. split; [exact Htrace|]. simpl.
    split; [reflexivity|]. split; [|intros ? []].
    intros Hp. destruct (Hprintable Hp) as [c' [Hc' _]]. discriminate Hc'.
  - exfalso. apply Hends. reflexivity.
Qed.

Lemma recipients_app (l1 l2 : list Action) :
  recipients (l1 ++ l2) = (recipients l1 ++ recipients l2)%list.
Proof. unfold recipients. apply omap_app. Qed.

Lemma backendCalls_app (l1 l2 : list Action) :
  backendCalls (l1 ++ l2) = (backendCalls l1 ++ backendCalls l2)%list.
Proof. unfold backendCalls. apply List.filter_app. Qed.

(** The loop over the players returns, whatever fails on the way, and
    writes to the reachable players in their order. *)
Lemma notifyPlayers_run (players : list (option Z)) (gameId type : string)
    (data : BotPart000.EventData Num) (w : World Num) :
  let run := BotViews.notifyPlayers players gameId type data w in
  run.1 = Done ()
  ∧ ∃ rest,
      trace run.2 = (trace w ++ rest)%list
      ∧ backendCalls rest = []
      ∧ (BotViews.printable type data = true
         → recipients rest = omap BotViews.reachable players)
      ∧ (∀ c, In c (recipients rest) → In (Some c) players).
Proof.
  revert w. induction players as [|player players IH]; intros w run; subst run.
  - split; [reflexivity|]. exists []. rewrite app_nil_r.
    split; [reflexivity|]. split; [reflexivity|]. split; [reflexivity|intros ? []].
  - cbn [BotViews.notifyPlayers]. cbv [bind].
    destruct (BotViews.reachable player) as [c|] eqn:Hreach.
    + assert (Hplayer : player = Some c).
      { unfold BotViews.reachable in Hreach. destruct player as [c'|]; [|discriminate].
        destruct (c' =? 0)%Z; congruence. }
      destruct (sendGameNotification_step c gameId type data w)
        as [Hdone (rest1 & Htrace1 & Hcalls1 & Hto1 & Honly1)].
      destruct (BotPart000.sendGameNotification c gameId type data w) as [r w1].
      simpl in Hdone, Htrace1. subst r. cbv beta iota.
      destruct (IH w1) as [Hdone2 (rest2 & Htrace2 & Hcalls2 & Hto2 & Honly2)].
      split; [exact Hdone2|]. exists (rest1 ++ rest2)%list.
      split; [rewrite Htrace2, Htrace1, app_assoc; reflexivity|].
      split; [rewrite backendCalls_app, Hcalls1, Hcalls2; reflexivity|].
      split.
      * intros Hp. rewrite recipients_app, (Hto1 Hp), (Hto2 Hp). simpl.
        rewrite Hreach. reflexivity.
      * intros c0 Hin. rewrite recipients_app in Hin. apply in_app_or in Hin as [Hin|Hin].
        -- left. rewrite Hplayer. f_equal. symmetry. apply Honly1. exact Hin.
        -- right. apply Honly2. exact Hin.
    + cbv [ret].
      destruct (IH w) as [Hdone2 (rest2 & Htrace2 & Hcalls2 & Hto2 & Honly2)].
      split; [exact Hdone2|]. exists rest2.
      split; [exact Htrace2|]. split; [exact Hcalls2|]. split.
      * intros Hp. rewrite (Hto2 Hp). simpl. rewrite Hreach. reflexivity.
      * intros c0 Hin. right. apply Honly2. exact Hin.
Qed.

(** X5: a broadcast always returns; it asks the backend for the players
    once, and then writes to every player that has a chat id other than
    zero, in order and once each, even when the sending to some of them
    fails; when the request for the players fails, nobody is written to. *)
Theorem broadcast_reaches_every_player (backendUrl : string)
    (playersOf : Response Num → option (list (option Z))) (gameId type : string)
    (data : BotPart000.EventData Num) (w : World Num) :
  let run := BotViews.broadcastGameUpdate backendUrl playersOf gameId type data w in
  let call := HttpGet (backendUrl +:+ "/api/games/" +:+ gameId +:+ "/players") in
  run.1 = Done ()
  ∧ (∀ d players,
       replies w (clock w) = Responds d → playersOf d = Some players →
       ∃ rest,
         trace run.2 = (trace w ++ call :: rest)%list
         ∧ backendCalls rest = []
         ∧ (BotViews.printable type data = true
            → recipients rest = omap BotViews.reachable players))
  ∧ (replies w (clock w) = Fails →
     trace run.2 = (trace w ++ [call; ConsoleError "Broadcast error:"])%list).
Proof.
  intros run call. subst run call. unfold BotViews.broadcastGameUpdate.
  cbv [try_catch bind request defined].
  destruct (replies w (clock w)) as [|d] eqn:Hreply.
  - simpl. split; [reflexivity|]. split; [intros ? ? [=]|].
    intros _. rewrite <- app_assoc. reflexivity.
  - destruct (playersOf d) as [players|] eqn:Hplayers.
    + cbv [ret].
      match goal with
      | |- context [BotViews.notifyPlayers players gameId type data ?w0] =>
          destruct (notifyPlayers_run players gameId type data w0)
            as [Hdone (rest & Htrace & Hcalls & Hto & _)];
          destruct (BotViews.notifyPlayers players gameId type data w0) as [r w1]
      end.
      simpl in Hdone, Htrace. subst r. simpl.
      split; [reflexivity|]. split; [|intros [=]].
      intros d' players' [= <-] Hp'. rewrite Hplayers in Hp'. injection Hp' as <-.
      exists rest. split; [rewrite Htrace, <- app_assoc; reflexivity|].
      split; [exact Hcalls|exact Hto].
    + simpl. split; [reflexivity|]. split; [|intros [=]].
      intros d' players' [= <-] Hp'. rewrite Hplayers in Hp'. discriminate.
Qed.

End BroadcastFacts.

(** ** The play handler of the first variant *)

Section PlayFacts.
Import Js Effects.
Context {Num : Type} `{JsNumber Num}.

(** Reporting a failure ends: the log entry and one message. *)
Lemma report_ends (label : Action) (chatId : Z) (text : string) (w : World Num) :
  ((log label;;; sendMessage chatId text None None) w).1 ≠ OutOfFuel.
Proof.
  cbv [bind log sendMessage request ret]. simpl.
  destruct (replies w (clock w)); discriminate.
Qed.

Lemma quietRound_shift (w : World Num) (tr : list Action) (k : nat) :
  BotViews.quietRound (mkWorld (replies w) (S (S (S (clock w)))) tr) k
  ↔ BotViews.quietRound w (S k).
Proof.
  unfold BotViews.quietRound. cbn [replies clock].
  replace (S (S (S (clock w))) + 3 * k)%nat with (clock w + 3 * S k)%nat by lia.
  reflexivity.
Qed.

(** A round that ended: whatever the replies to the report, the outcome
    is not the exhaustion of the fuel, and the round was not quiet. *)
Ltac ended :=
  repeat match goal with
         | |- context [match replies ?w0 ?i with _ => _ end] =>
             destruct (replies w0 i) eqn:?; cbn [replies clock trace]
         end;
  cbn [fst snd];
  (split;
   [discriminate
   |let d' := fresh "d" in
    let Hd := fresh "Hd" in
    let Hn := fresh "Hn" in
    intros [[(d' & Hd & Hn) [? ?]] _]; congruence]).

(** X6: the play handler of the first variant is still calling itself
    after [fuel] invocations exactly when each of the [fuel] rounds so far
    found no game and met no failure; it ends with the first round in
    which the backend has a game or a call fails. *)
Theorem handlePlayCommand_runs_on_iff (backendUrl : string) (chatId : Z) (fuel : nat)
    (w : World Num) :
  (BotPart000.handlePlayCommand backendUrl fuel chatId w).1 = OutOfFuel
  ↔ ∀ k, (k < fuel)%nat → BotViews.quietRound w k.
Proof.
  revert w. induction fuel as [|fuel IH]; intros w.
  - split; [intros _ k Hk; lia|reflexivity].
  - cbn [BotPart000.handlePlayCommand].
    assert (Hq0 : BotViews.quietRound w 0
                  ↔ (∃ d, replies w (clock w) = Responds d ∧ game d = None)
                    ∧ replies w (S (clock w)) ≠ Fails
                    ∧ replies w (S (S (clock w))) ≠ Fails).
    { unfold BotViews.quietRound.
      replace (clock w + 3 * 0)%nat with (clock w) by lia.
      replace (clock w + 1)%nat with (S (clock w)) by lia.
      replace (clock w + 2)%nat with (S (S (clock w))) by lia. reflexivity. }
    assert (Hsplit : (∀ k, (k < S fuel)%nat → BotViews.quietRound w k)
                     ↔ BotViews.quietRound w 0
                       ∧ ∀ k, (k < fuel)%nat → BotViews.quietRound w (S k)).
    { split.
      - intros Hall. split; [apply Hall; lia|intros k Hk; apply Hall; lia].
      - intros [Hzero Hrest] [|k] Hk; [exact Hzero|apply Hrest; lia]. }
    rewrite Hsplit, Hq0. clear Hsplit Hq0.
    cbv [try_catch bind request sendMessage ret log].
    destruct (replies w (clock w)) as [|d] eqn:H0; cbn [replies clock trace];
      [ended|].
    destruct (game d) as [g|] eqn:Hg; cbn [replies clock trace]; [ended|].
    destruct (replies w (S (clock w))) eqn:H1; cbn [replies clock trace]; [ended|].
    destruct (replies w (S (S (clock w)))) eqn:H2; cbn [replies clock trace]; [ended|].
    match goal with
    | |- context [BotPart000.handlePlayCommand backendUrl fuel chatId ?w3] =>
        pose proof (IH w3) as Hinner;
        assert (Hshift : (∀ k, (k < fuel)%nat → BotViews.quietRound w3 k)
                         ↔ ∀ k, (k < fuel)%nat → BotViews.quietRound w (S k))
          by (split; intros Hq k Hk;
              [apply (quietRound_shift w (trace w3) k)
              |apply (quietRound_shift w (trace w3) k)]; apply Hq; exact Hk);
        rewrite Hshift in Hinner; clear Hshift;
        destruct (BotPart000.handlePlayCommand backendUrl fuel chatId w3) as [[a|e|] w4]
    end; cbn [fst snd replies clock trace] in *.
    + split; [discriminate|]. intros [_ Hrest]. apply Hinner in Hrest. discriminate.
    + split.
      * destruct (replies w4 (clock w4)); discriminate.
      * intros [_ Hrest]. apply Hinner in Hrest. discriminate.
    + split; [|reflexivity]. intros _. split.
      * split; [exists d; split; [reflexivity|exact Hg]|]. split; discriminate.
      * apply Hinner. reflexivity.
Qed.

End PlayFacts.

(** ** Buying a card *)

Section BuyFacts.
Import Js Effects.
Context {Num : Type} `{JsNumber Num}.
Variable backendUrl : string.

Ltac buy_cases w :=
  cbv [BotPart000.buyCard try_catch bind request sendMessage ret log defined throw];
  destruct (replies w (clock w)) as [|d] eqn:Hreply; cbn [replies clock trace];
  [|destruct (success d) eqn:Hsuccess;
    [destruct (card d) as [c|] eqn:Hcard;
     [destruct (formatCardAsText c) as [text|] eqn:Htext|]|]];
  cbn [replies clock trace];
  repeat match goal with
         | |- context [match replies w ?i with _ => _ end] =>
             destruct (replies w i) eqn:?; cbn [replies clock trace]
         end;
  cbn [fst snd replies clock trace].

(** X7: [buyCard] ends: it returns, or it throws the failure of sending
    its own error message, after logging, and nothing else; it returns
    whenever every call after the post succeeds. It posts the purchase
    exactly once, first of all, and asks the backend nothing else: a failed
    purchase is never tried again. After that it writes to its own chat
    only, at least once and at most twice. *)
Theorem buyCard_posts_once (chatId : Z) (gameId : option string) (cardNumber : JsVal)
    (w : World Num) :
  let run := BotPart000.buyCard backendUrl chatId gameId cardNumber w in
  let failed :=
    [ConsoleError "Buy card error:";
     SendMessage (mkMessage chatId "❌ Error purchasing card. Please check your balance."
                            None None)] in
  run.1 ≠ OutOfFuel
  ∧ (run.1 = Done () ∨ run.1 = Thrown RequestError)
  ∧ (run.1 = Thrown RequestError →
     ∃ pre, trace run.2 = (pre ++ failed)%list
            ∧ replies w (clock run.2 - 1) = Fails)
  ∧ ((∀ k, (clock w < k)%nat → replies w k ≠ Fails) → run.1 = Done ())
  ∧ ∃ rest,
      trace run.2
      = (trace w
         ++ HttpPostBuyCard (backendUrl +:+ "/api/games/" +:+ showOpt id gameId +:+ "/buy-card")
              (BotPart000.buyCardBody chatId cardNumber) :: rest)%list
      ∧ backendCalls rest = []
      ∧ (∀ c, In c (recipients rest) → c = chatId)
      ∧ (1 ≤ length (recipients rest) ≤ 2)%nat.
Proof.
  intros run failed. subst run failed. buy_cases w;
    (split; [discriminate|];
     split; [first [left; reflexivity|right; reflexivity]|];
     split; [intros Hx;
             first [discriminate Hx
                   |eexists; split;
                    [rewrite <- app_assoc; reflexivity
                    |cbn [Nat.sub]; assumption]]|];
     split; [intros Hok;
             first [reflexivity
                   |exfalso;
                    match goal with
                    | Hf : replies w ?i = Fails |- _ => apply (Hok i); [lia|exact Hf]
                    end]|];
     eexists;
     split; [rewrite <- ?app_assoc; cbn [app]; reflexivity|];
     split; [reflexivity|];
     split; [cbn; intros c0 Hin; repeat (destruct Hin as [<-|Hin]; [reflexivity|]);
             destruct Hin
            |cbn; lia]).
Qed.

(** X8: when the backend reports a purchase but the card of the reply
    is missing or cannot be printed, the user is told that the purchase
    failed: the only message is the error text. *)
Theorem buyCard_unprintable_card_reported_failed (chatId : Z) (gameId : option string)
    (cardNumber : JsVal) (w : World Num) (answer : Response Num) :
  replies w (clock w) = Responds answer →
  success answer = true →
  (card answer = None ∨ ∃ c, card answer = Some c ∧ formatCardAsText c = None) →
  let run := BotPart000.buyCard backendUrl chatId gameId cardNumber w in
  trace run.2
  = (trace w
     ++ [HttpPostBuyCard (backendUrl +:+ "/api/games/" +:+ showOpt id gameId +:+ "/buy-card")
           (BotPart000.buyCardBody chatId cardNumber);
         ConsoleError "Buy card error:";
         SendMessage (mkMessage chatId "❌ Error purchasing card. Please check your balance."
                                None None)])%list.
Proof.
  intros Hr Hs Hbad run. subst run. buy_cases w;
    try discriminate Hr; injection Hr as <-;
    try congruence;
    try (exfalso; destruct Hbad as [Hnone|[c' [Hc' Hf]]]; congruence);
    rewrite <- ?app_assoc; reflexivity.
Qed.

End BuyFacts.

(** ** Splitting and prefixes *)

Lemma prefix_append (p s : string) : String.prefix p (p +:+ s) = true.
Proof.
  induction p as [|a p IH]; [destruct s; reflexivity|].
  rewrite append_cons. simpl. destruct (ascii_dec a a); [exact IH|contradiction].
Qed.

Lemma drop_string_append (p s : string) : Js.drop_string (String.length p) (p +:+ s) = s.
Proof. induction p as [|a p IH]; [reflexivity|]. rewrite append_cons. exact IH. Qed.

Lemma split_nonempty (sep : ascii) (s : string) : Js.split sep s ≠ [].
Proof.
  induction s as [|c s IH]; [discriminate|]. simpl.
  destruct (Ascii.eqb c sep); [discriminate|].
  destruct (Js.split sep s); [contradiction|discriminate].
Qed.

(** A string without the separator is one piece. *)
Lemma split_one_piece (sep : ascii) (s : string) :
  has_char sep s = false → Js.split sep s = [s].
Proof.
  induction s as [|c s IH]; [reflexivity|]. simpl. intros Hno.
  apply orb_false_iff in Hno as [Hc Hs]. rewrite Hc, (IH Hs). reflexivity.
Qed.

(** The first piece ends at the first separator. *)
Lemma split_first_piece (sep : ascii) (a b : string) :
  has_char sep a = false →
  Js.split sep (a +:+ String sep b) = a :: Js.split sep b.
Proof.
  induction a as [|c a IH]; intros Hno.
  - change ("" +:+ String sep b) with (String sep b). simpl.
    rewrite Ascii.eqb_refl. reflexivity.
  - simpl in Hno. apply orb_false_iff in Hno as [Hc Ha].
    rewrite append_cons. simpl. rewrite Hc, (IH Ha). reflexivity.
Qed.

(** Replacing a prefix by nothing leaves the rest. *)
Lemma replace_prefix (p s : string) : Js.replace p "" (p +:+ s) = s.
Proof.
  assert (Hunfold : ∀ x, Js.replace p "" x
                         = if String.prefix p x
                           then "" +:+ Js.drop_string (String.length p) x
                           else match x with
                                | EmptyString => ""
                                | String c x' => String c (Js.replace p "" x')
                                end)
    by (intros x; destruct x; reflexivity).
  rewrite Hunfold, prefix_append, drop_string_append. reflexivity.
Qed.

(** ** The callback handler *)

Section CallbackFacts.
Import Js Effects.
Context {Num : Type} `{JsNumber Num}.
Variable backendUrl : string.
Variable m : BotPart000.Methods (Num := Num).

Lemma dispatch_join_game (chatId : Z) (gameId : string) :
  BotPart000.dispatch backendUrl m chatId ("join_game_" +:+ gameId) = throw TypeError.
Proof.
  unfold BotPart000.dispatch, startsWith. rewrite prefix_append. reflexivity.
Qed.

Lemma dispatch_deposit (chatId : Z) (amount : string) :
  BotPart000.dispatch backendUrl m chatId ("deposit_" +:+ amount)
  = BotPart000.processDeposit m chatId amount.
Proof.
  unfold BotPart000.dispatch, startsWith.
  replace (String.prefix "join_game_" ("deposit_" +:+ amount)) with false
    by (repeat rewrite append_cons; reflexivity).
  replace (String.prefix "buy_card_" ("deposit_" +:+ amount)) with false
    by (repeat rewrite append_cons; reflexivity).
  replace (String.prefix "select_card_page_" ("deposit_" +:+ amount)) with false
    by (repeat rewrite append_cons; reflexivity).
  rewrite (bool_decide_eq_false_2 ("deposit_" +:+ amount = "view_web_app"))
    by (rewrite append_cons; discriminate).
  rewrite (bool_decide_eq_false_2 ("deposit_" +:+ amount = "view_balance"))
    by (rewrite append_cons; discriminate).
  rewrite prefix_append. f_equal. apply replace_prefix.
Qed.

(** X9: a press on a button whose data starts with [join_game_] (View
    Game, View Numbers) is answered and then always ends in the error
    message, because the handler calls a method the class does not have. *)
Theorem join_game_press_reports_error (cqid : string) (chatId : Z) (gameId : string)
    (w : World Num) (d d' : Response Num) :
  replies w (clock w) = Responds d →
  replies w (S (clock w)) = Responds d' →
  BotPart000.onCallbackQuery backendUrl m
    (BotPart000.mkCallbackQuery cqid (Some chatId) (Some ("join_game_" +:+ gameId))) w
  = (Done (),
     mkWorld (replies w) (S (S (clock w)))
             (trace w ++ BotViews.callbackReport cqid chatId)).
Proof.
  intros Hanswer Hsend.
  rewrite (onCallbackQuery_answered backendUrl m
             (BotPart000.mkCallbackQuery cqid (Some chatId) (Some ("join_game_" +:+ gameId)))
             chatId ("join_game_" +:+ gameId) w d eq_refl eq_refl Hanswer).
  rewrite dispatch_join_game.
  cbv [try_catch throw bind log sendMessage request ret]. cbn [replies clock trace].
  rewrite Hsend. unfold BotViews.callbackReport. cbn [BotPart000.cq_id].
  rewrite <- !app_assoc. reflexivity.
Qed.

(** X10: every callback data that starts with [deposit_] is handed to
    [processDeposit] with the rest of the data as the amount, whatever it
    is; so each button of the deposit keyboard reaches a method: an
    amount, the custom amount, the balance or the main menu. *)
Theorem deposit_buttons_routed (chatId : Z) :
  (∀ amount : string,
     BotPart000.dispatch backendUrl m chatId ("deposit_" +:+ amount)
     = BotPart000.processDeposit m chatId amount)
  ∧ ∀ b, In b (concat (inline_keyboard BotViews.depositKeyboard)) →
         ∃ data, action b = CallbackData data
                 ∧ ((∃ amount, data = "deposit_" +:+ amount
                               ∧ BotPart000.dispatch backendUrl m chatId data
                                 = BotPart000.processDeposit m chatId amount)
                    ∨ (data = "view_balance"
                       ∧ BotPart000.dispatch backendUrl m chatId data
                         = BotPart000.showBalance m chatId)
                    ∨ (data = "main_menu"
                       ∧ BotPart000.dispatch backendUrl m chatId data
                         = BotPart000.showMainMenu m chatId)).
Proof.
  split; [intros amount; apply dispatch_deposit|].
  intros b Hin. cbn in Hin.
  repeat (destruct Hin as [<-|Hin];
          [eexists; split; [reflexivity|];
           first [left; eexists; split; [reflexivity|]; apply dispatch_deposit
                 |right; left; split; reflexivity
                 |right; right; split; reflexivity]|]).
  destruct Hin.
Qed.

(** X11: a callback whose data matches no branch of the handler is
    answered and otherwise ignored: no message, no log entry, no request. *)
Theorem unmatched_callback_only_answered (cqid : string) (chatId : Z) (data : string)
    (w : World Num) (d : Response Num) :
  startsWith data "join_game_" = false →
  startsWith data "buy_card_" = false →
  startsWith data "select_card_page_" = false →
  startsWith data "deposit_" = false →
  data ≠ "view_web_app" → data ≠ "view_balance" →
  data ≠ "claim_bingo" → data ≠ "main_menu" →
  replies w (clock w) = Responds d →
  BotPart000.onCallbackQuery backendUrl m
    (BotPart000.mkCallbackQuery cqid (Some chatId) (Some data)) w
  = (Done (), mkWorld (replies w) (S (clock w)) (trace w ++ [AnswerCallbackQuery cqid])).
Proof.
  intros Hj Hb Hs Hd Hweb Hbal Hclaim Hmenu Hanswer.
  rewrite (onCallbackQuery_answered backendUrl m
             (BotPart000.mkCallbackQuery cqid (Some chatId) (Some data))
             chatId data w d eq_refl eq_refl Hanswer).
  unfold BotPart000.dispatch. rewrite Hj, Hb, Hs, Hd.
  repeat (rewrite bool_decide_eq_false_2 by assumption).
  reflexivity.
Qed.

(** X12: a callback query without a message makes the handler fail at
    once, before the query is answered; one without data is answered and
    then reported as an error. *)
Theorem callback_without_message_or_data (cq : BotPart000.CallbackQuery) (w : World Num) :
  (BotPart000.cq_chat cq = None →
   BotPart000.onCallbackQuery backendUrl m cq w = (Thrown TypeError, w))
  ∧ (∀ chatId d d',
       BotPart000.cq_chat cq = Some chatId → BotPart000.cq_data cq = None →
       replies w (clock w) = Responds d → replies w (S (clock w)) = Responds d' →
       BotPart000.onCallbackQuery backendUrl m cq w
       = (Done (),
          mkWorld (replies w) (S (S (clock w)))
                  (trace w ++ BotViews.callbackReport (BotPart000.cq_id cq) chatId))).
Proof.
  split.
  - intros Hnone. unfold BotPart000.onCallbackQuery. rewrite Hnone. reflexivity.
  - intros chatId d d' Hchat Hdata Hanswer Hsend.
    unfold BotPart000.onCallbackQuery, BotPart000.callbackBody. rewrite Hchat, Hdata.
    cbv [try_catch throw bind log sendMessage request ret defined].
    rewrite Hanswer. cbn [replies clock trace]. rewrite Hsend.
    unfold BotViews.callbackReport. rewrite <- !app_assoc. reflexivity.
Qed.

(** X13: the data of a page button leads back to the card selection of
    the same game at that page, provided the game id has no underscore:
    the page number printed into the data is the one parsed out of it. *)
Theorem page_button_round_trip (chatId : Z) (gameId : string) (page : Z) :
  has_char "_" gameId = false →
  BotPart000.dispatch backendUrl m chatId (BotViews.pageData (Some gameId) page)
  = BotPart000.showCardSelection m chatId (Some gameId) (JsInt page).
Proof.
  intros Hno. unfold BotViews.pageData, showOpt, id.
  unfold BotPart000.dispatch, startsWith.
  replace (String.prefix "join_game_" ("select_card_page_" +:+ gameId +:+ "_" +:+ toString page))
    with false by (repeat rewrite append_cons; reflexivity).
  replace (String.prefix "buy_card_" ("select_card_page_" +:+ gameId +:+ "_" +:+ toString page))
    with false by (repeat rewrite append_cons; reflexivity).
  rewrite prefix_append.
  change ("select_card_page_" +:+ gameId +:+ "_" +:+ toString page)
    with ("select" +:+ String "_" ("card" +:+ String "_" ("page" +:+ String "_"
            (gameId +:+ String "_" (toString page))))).
  rewrite !split_first_piece by (reflexivity || exact Hno).
  rewrite (split_one_piece "_" (toString page)) by apply toString_no_underscore.
  cbn [drop lookup list_lookup]. unfold parseInt. rewrite parseInt_toString. reflexivity.
Qed.

End CallbackFacts.

(** ** Keyboards *)

Lemma list_ind4 {A} (P : list A → Prop) :
  P [] → (∀ a, P [a]) → (∀ a b, P [a; b]) → (∀ a b c, P [a; b; c]) →
  (∀ a b c d rest, P rest → P (a :: b :: c :: d :: rest)) →
  ∀ l, P l.
Proof.
  intros H0 H1 H2 H3 H4 l.
  assert (Hlen : ∀ n l', (length l' ≤ n)%nat → P l').
  { intros n. induction n as [|n IH]; intros l' Hl'.
    - destruct l'; [exact H0|simpl in Hl'; lia].
    - destruct l' as [|a [|b [|c [|d rest]]]]; auto.
      apply H4, IH. simpl in Hl'. lia. }
  apply (Hlen (length l) l). lia.
Qed.

(** The rows of four: all the elements in order, no empty row, no row
    longer than four, and as few rows as that allows. *)
Lemma rowsOfFour_spec {A} (l : list A) :
  concat (BotViews.rowsOfFour l) = l
  ∧ Forall (λ row, (1 ≤ length row ≤ 4)%nat) (BotViews.rowsOfFour l)
  ∧ (length l ≤ 4 * length (BotViews.rowsOfFour l) < length l + 4)%nat.
Proof.
  induction l as [|a|a b|a b c|a b c d rest IH] using list_ind4;
    try (split; [reflexivity|]; split; [repeat constructor; simpl; lia|simpl; lia]).
  destruct IH as (Hconcat & Hrows & Hcount).
  cbn [BotViews.rowsOfFour concat app]. rewrite Hconcat.
  split; [reflexivity|]. split; [constructor; [simpl; lia|exact Hrows]|simpl in *; lia].
Qed.

Section KeyboardFacts.
Import Js Effects.

(** X14: the keyboard of the card selection shows every card of the
    page once and in order, in rows of at most four buttons and in as few
    rows as possible, followed by the row of the page buttons and the row
    with the random card and the cancellation. *)
Theorem selectionKeyboard_shows_every_card (gameId : option string) (page : option Z)
    (totalPages : Z) (cards : list Z) :
  ∃ cardRows,
    inline_keyboard (BotViews.selectionKeyboard gameId page totalPages cards)
    = (cardRows
       ++ [BotViews.navButtons gameId page totalPages;
           [mkButton "🎲 Buy Random Card"
              (CallbackData ("buy_card_" +:+ showOpt id gameId +:+ "_random"));
            mkButton "❌ Cancel" (CallbackData "main_menu")]])%list
    ∧ concat cardRows = map (BotViews.cardButton gameId) cards
    ∧ Forall (λ row, (1 ≤ length row ≤ 4)%nat) cardRows
    ∧ (length cards ≤ 4 * length cardRows < length cards + 4)%nat.
Proof.
  destruct (rowsOfFour_spec cards) as (Hconcat & Hrows & Hcount).
  exists (map (map (BotViews.cardButton gameId)) (BotViews.rowsOfFour cards)).
  split; [reflexivity|]. split; [|split].
  - rewrite <- concat_map. rewrite Hconcat. reflexivity.
  - clear Hconcat Hcount.
    induction Hrows as [|row rows Hrow _ IH]; cbn [map]; constructor;
      [rewrite length_map; exact Hrow|exact IH].
  - rewrite length_map. exact Hcount.
Qed.

Lemma CallbackData_inj (a b : string) : CallbackData a = CallbackData b → a = b.
Proof. intros Heq. injection Heq as ->. reflexivity. Qed.

(** The actions of the page buttons. *)
Lemma navButtons_actions (gameId : option string) (page totalPages : Z) (x : ButtonAction) :
  In x (map action (BotViews.navButtons gameId (Some page) totalPages))
  ↔ ((1 < page)%Z ∧ CallbackData (BotViews.pageData gameId (page - 1)) = x)
    ∨ CallbackData "noop" = x
    ∨ ((page < totalPages)%Z ∧ CallbackData (BotViews.pageData gameId (page + 1)) = x).
Proof.
  unfold BotViews.navButtons.
  destruct (Z.ltb_spec 1 page) as [Hprev|Hprev];
    destruct (Z.ltb_spec page totalPages) as [Hnext|Hnext]; cbn [app map In action];
    intuition lia.
Qed.

(** X15: on a page between 1 and the number of pages, the page buttons
    offer only the page before and the page after, and never a page
    outside 1..totalPages; when the page is NaN only the label is there. *)
Theorem navButtons_within_bounds (gameId : option string) (page totalPages : Z) :
  (1 ≤ page ≤ totalPages)%Z →
  (∀ b, In b (BotViews.navButtons gameId (Some page) totalPages) →
        action b = CallbackData "noop"
        ∨ ∃ q, action b = CallbackData (BotViews.pageData gameId q)
               ∧ (1 ≤ q ≤ totalPages)%Z ∧ (q = page - 1 ∨ q = page + 1)%Z)
  ∧ (In (CallbackData (BotViews.pageData gameId (page - 1)))
        (map action (BotViews.navButtons gameId (Some page) totalPages))
     ↔ (1 < page)%Z)
  ∧ (In (CallbackData (BotViews.pageData gameId (page + 1)))
        (map action (BotViews.navButtons gameId (Some page) totalPages))
     ↔ (page < totalPages)%Z)
  ∧ map action (BotViews.navButtons gameId None totalPages) = [CallbackData "noop"].
Proof.
  intros Hpage.
  assert (Hnoop : ∀ q, "noop" ≠ BotViews.pageData gameId q)
    by (intros q; unfold BotViews.pageData; rewrite append_cons; discriminate).
  assert (Hinj : ∀ a b, BotViews.pageData gameId a = BotViews.pageData gameId b → a = b).
  { intros a b Heq. unfold BotViews.pageData in Heq.
    do 3 apply String.app_inj in Heq. apply toString_injective. exact Heq. }
  split; [|split; [|split; [|reflexivity]]].
  - intros b Hin. apply (in_map action) in Hin. apply navButtons_actions in Hin.
    destruct Hin as [[Hlt Heq]|[Heq|[Hlt Heq]]].
    + right. exists (page - 1)%Z. split; [symmetry; exact Heq|]. lia.
    + left. symmetry. exact Heq.
    + right. exists (page + 1)%Z. split; [symmetry; exact Heq|]. lia.
  - rewrite navButtons_actions. split.
    + intros [[Hlt _]|[Heq|[_ Heq]]]; [exact Hlt|..]; apply CallbackData_inj in Heq.
      * destruct (Hnoop _ Heq).
      * apply Hinj in Heq. lia.
    + intros Hlt. left. split; [exact Hlt|reflexivity].
  - rewrite navButtons_actions. split.
    + intros [[_ Heq]|[Heq|[Hlt _]]]; [..|exact Hlt]; apply CallbackData_inj in Heq.
      * apply Hinj in Heq. lia.
      * destruct (Hnoop _ Heq).
    + intros Hlt. right. right. split; [exact Hlt|reflexivity].
Qed.

(** X16: the game keyboard of the play handler offers the card
    selection, at page 1, exactly while the game is waiting, and the claim
    exactly while it is active; the web app button is always there. *)
Theorem gameKeyboard_by_status {Num : Type} (g : Game Num) :
  let actions := map action (concat (inline_keyboard (BotPart000.gameKeyboard g))) in
  (In (CallbackData (BotViews.pageData (Some (game_id g)) 1)) actions
   ↔ status g = "waiting")
  ∧ (In (CallbackData "claim_bingo") actions ↔ status g = "active")
  ∧ In (CallbackData "view_web_app") actions.
Proof.
  unfold BotPart000.gameKeyboard.
  assert (Hpage : ∀ s, BotViews.pageData (Some (game_id g)) 1 ≠ "join_game_" +:+ s)
    by (intros s; unfold BotViews.pageData; rewrite !append_cons; discriminate).
  assert (Hpage' : BotViews.pageData (Some (game_id g)) 1 ≠ "view_web_app"
                   ∧ BotViews.pageData (Some (game_id g)) 1 ≠ "claim_bingo")
    by (unfold BotViews.pageData; rewrite !append_cons; split; discriminate).
  assert (Hclaim : ∀ s, "claim_bingo" ≠ "join_game_" +:+ s
                        ∧ "claim_bingo" ≠ "select_card_page_" +:+ s)
    by (intros s; rewrite !append_cons; split; discriminate).
  destruct Hpage' as [Hweb Hcb].
  case_bool_decide as Hwaiting; [|case_bool_decide as Hactive];
    cbn [concat app map In action inline_keyboard].
  - rewrite Hwaiting. split; [split; [reflexivity|left; reflexivity]|].
    split; [|auto 6].
    split; [|discriminate].
    intros [Heq|[Heq|[Heq|[]]]]; apply CallbackData_inj in Heq;
      first [destruct (proj2 (Hclaim _) (eq_sym Heq))
            |destruct (proj1 (Hclaim _) (eq_sym Heq))
            |discriminate Heq].
  - rewrite Hactive. split; [split; [|discriminate]|].
    + intros [Heq|[Heq|[Heq|[]]]]; apply CallbackData_inj in Heq;
        first [destruct (Hpage _ (eq_sym Heq))|destruct (Hcb (eq_sym Heq))
              |destruct (Hweb (eq_sym Heq))].
    + split; [split; [reflexivity|auto 6]|auto 6].
  - split; [split; [|intros Hw; contradiction]|].
    + intros [Heq|[]]. apply CallbackData_inj in Heq. destruct (Hweb (eq_sym Heq)).
    + split; [split; [|intros Ha; contradiction]|left; reflexivity].
      intros [Heq|[]]. discriminate Heq.
Qed.

End KeyboardFacts.

(** ** The text of a card *)

Lemma foldl_ext_in {A B} (f g : B → A → B) (l : list A) (b : B) :
  (∀ acc x, In x l → f acc x = g acc x) → foldl f b l = foldl g b l.
Proof.
  revert b. induction l as [|x l IH]; intros b Hext; [reflexivity|].
  simpl. rewrite (Hext b x) by (left; reflexivity).
  apply IH. intros acc y Hy. apply Hext. right. exact Hy.
Qed.

(** X17: the text of a card does not depend on the marks: two grids
    whose first five rows and columns agree on the letter, the number and
    the free flag of every cell are printed alike, whatever is called and
    whatever lies outside these rows and columns. *)
Theorem formatCardAsText_ignores_marks (card1 card2 : Card) :
  (∀ row col, row < 5 → col < 5 →
     match getCell card1 row col, getCell card2 row col with
     | Some a, Some b => letter a = letter b ∧ number a = number b ∧ free a = free b
     | None, None => True
     | _, _ => False
     end) →
  formatCardAsText card1 = formatCardAsText card2.
Proof.
  intros Hagree.
  assert (Hcell : ∀ row col, row < 5 → col < 5 →
                  getCell card1 row col ≫= formatCell = getCell card2 row col ≫= formatCell).
  { intros row col Hrow Hcol. specialize (Hagree row col Hrow Hcol).
    destruct (getCell card1 row col) as [a|], (getCell card2 row col) as [b|];
      try contradiction; [|reflexivity].
    destruct Hagree as (Hl & Hn & Hf). simpl. unfold formatCell. rewrite Hl, Hn, Hf.
    reflexivity. }
  assert (Hrow : ∀ row, row < 5 → formatRow card1 row = formatRow card2 row).
  { intros row Hrow. unfold formatRow. apply foldl_ext_in.
    intros acc col Hcol. apply In_seq_5 in Hcol. rewrite (Hcell row col Hrow Hcol).
    reflexivity. }
  unfold formatCardAsText. apply foldl_ext_in.
  intros acc row Hin. apply In_seq_5 in Hin. rewrite (Hrow row Hin). reflexivity.
Qed.

Lemma length_append (a b : string) :
  String.length (a +:+ b) = (String.length a + String.length b)%nat.
Proof.
  induction a as [|c a IH]; [reflexivity|]. rewrite append_cons. simpl. rewrite IH.
  reflexivity.
Qed.

(** A number between 0 and 99 is printed on two characters. *)
Lemma padStart_two (n : Z) :
  (0 ≤ n ≤ 99)%Z → String.length (padStart 2 (toString n)) = 2%nat.
Proof.
  intros Hn. assert (Hk : ∃ k, (k < 100)%nat ∧ n = Z.of_nat k)
    by (exists (Z.to_nat n); lia).
  destruct Hk as (k & Hk & ->). clear Hn.
  do 100 (destruct k as [|k]; [reflexivity|]). lia.
Qed.

(** The width of a printed cell: six characters when free, five when it
    has a letter of one character and a number between 0 and 99. *)
Lemma formatCell_width (cell : Cell) (s : string) :
  formatCell cell = Some s →
  (free cell = false →
   String.length (letter cell) = 1%nat ∧ ∃ n, number cell = Some n ∧ (0 ≤ n ≤ 99)%Z) →
  String.length s = if free cell then 6%nat else 5%nat.
Proof.
  unfold formatCell. destruct (free cell); intros Hs Hshape.
  - injection Hs as <-. reflexivity.
  - destruct (Hshape eq_refl) as (Hletter & n & Hnumber & Hn).
    rewrite Hnumber in Hs. simpl in Hs. injection Hs as <-.
    rewrite !length_append, Hletter, (padStart_two n Hn). reflexivity.
Qed.

(** X18: a printed row of a card with one-letter columns and numbers
    between 0 and 99 has 28 characters and one more for each free cell in
    it: the FREE cell is one character wider than a numbered one. *)
Theorem formatRow_width (card : Card) (row : nat) (text : string) :
  row < 9 →
  formatRow card row = Some text →
  (∀ col cell, col < 5 → getCell card row col = Some cell → free cell = false →
     String.length (letter cell) = 1%nat
     ∧ ∃ n, number cell = Some n ∧ (0 ≤ n ≤ 99)%Z) →
  String.length text
  = (28 + length (List.filter (λ col, match getCell card row col with
                                     | Some cell => free cell
                                     | None => false
                                     end) (seq 0 5)))%nat.
Proof.
  intros Hrow Htext Hshape.
  assert (Hhead : String.length (toString (Z.of_nat (row + 1)) +:+ " |") = 3%nat)
    by (do 9 (destruct row as [|row]; [reflexivity|]); lia).
  unfold formatRow in Htext. cbn [seq foldl] in Htext.
  set (head := toString (Z.of_nat (row + 1)) +:+ " |") in *.
  cbn [mbind option_bind] in Htext.
  pose proof (Hshape 0%nat) as H0. pose proof (Hshape 1%nat) as H1.
  pose proof (Hshape 2%nat) as H2. pose proof (Hshape 3%nat) as H3.
  pose proof (Hshape 4%nat) as H4. clear Hshape.
  cbn [List.filter seq].
  destruct (getCell card row 0) as [c0|];
    [|simpl in Htext; discriminate Htext].
  cbn [mbind option_bind] in Htext.
  destruct (formatCell c0) as [s0|] eqn:Hs0;
    [|simpl in Htext; discriminate Htext].
  cbn [mbind option_bind] in Htext.
  destruct (getCell card row 1) as [c1|];
    [|simpl in Htext; discriminate Htext].
  cbn [mbind option_bind] in Htext.
  destruct (formatCell c1) as [s1|] eqn:Hs1;
    [|simpl in Htext; discriminate Htext].
  cbn [mbind option_bind] in Htext.
  destruct (getCell card row 2) as [c2|];
    [|simpl in Htext; discriminate Htext].
  cbn [mbind option_bind] in Htext.
  destruct (formatCell c2) as [s2|] eqn:Hs2;
    [|simpl in Htext; discriminate Htext].
  cbn [mbind option_bind] in Htext.
  destruct (getCell card row 3) as [c3|];
    [|simpl in Htext; discriminate Htext].
  cbn [mbind option_bind] in Htext.
  destruct (formatCell c3) as [s3|] eqn:Hs3;
    [|simpl in Htext; discriminate Htext].
  cbn [mbind option_bind] in Htext.
  destruct (getCell card row 4) as [c4|];
    [|simpl in Htext; discriminate Htext].
  cbn [mbind option_bind] in Htext.
  destruct (formatCell c4) as [s4|] eqn:Hs4;
    [|simpl in Htext; discriminate Htext].
  cbn [mbind option_bind] in Htext.
  cbn [mbind option_bind] in Htext. injection Htext as <-.
  rewrite !length_append, Hhead.
  rewrite (formatCell_width c0 s0 Hs0) by (intros Hf; apply H0; [lia|reflexivity|exact Hf]).
  rewrite (formatCell_width c1 s1 Hs1) by (intros Hf; apply H1; [lia|reflexivity|exact Hf]).
  rewrite (formatCell_width c2 s2 Hs2) by (intros Hf; apply H2; [lia|reflexivity|exact Hf]).
  rewrite (formatCell_width c3 s3 Hs3) by (intros Hf; apply H3; [lia|reflexivity|exact Hf]).
  rewrite (formatCell_width c4 s4 Hs4) by (intros Hf; apply H4; [lia|reflexivity|exact Hf]).
  destruct (free c0), (free c1), (free c2), (free c3), (free c4); reflexivity.
Qed.

(** ** The socket provider *)

Section ProviderFacts.
Context {Socket Payload : Type}.
Variable socketInstance : Socket.
Variable authentication : Payload.

Local Notation "'run'" := (SocketProvider.run socketInstance authentication).
Local Notation "'mounted'" := (SocketProvider.mounted socketInstance).
Local Notation "'onEvent'" := (SocketProvider.onEvent socketInstance authentication).

Lemma run_snoc (events : list SocketProvider.SocketEvent) (e : SocketProvider.SocketEvent)
    (p : SocketProvider.Provider Socket Payload) :
  run (events ++ [e]) p = onEvent e (run events p).
Proof. unfold SocketProvider.run. rewrite foldl_app. reflexivity. Qed.

Lemma run_cons_snoc (events later : list SocketProvider.SocketEvent)
    (e last : SocketProvider.SocketEvent) (p : SocketProvider.Provider Socket Payload) :
  run (events ++ e :: later ++ [last]) p = onEvent last (run (events ++ e :: later) p).
Proof.
  replace (events ++ e :: later ++ [last])%list with ((events ++ e :: later) ++ [last])%list
    by (rewrite <- app_assoc; reflexivity).
  apply run_snoc.
Qed.

(** No event takes the socket instance away from the context. *)
Lemma run_keeps_socket (events : list SocketProvider.SocketEvent) :
  Web.socket (Web.context (SocketProvider.page (run events mounted))) = Some socketInstance.
Proof.
  induction events as [|e events IH] using rev_ind; [reflexivity|].
  rewrite run_snoc. destruct e; simpl; exact IH.
Qed.

(** X19: after a [disconnect], and until a [connect] or a [reconnect]
    arrives, [emit] sends nothing: it writes the warning and leaves the
    rest of the page as it is. *)
Theorem emit_silent_after_disconnect (events later : list SocketProvider.SocketEvent)
    (reason event : string) (data : Payload) :
  Forall (λ e, e ≠ SocketProvider.Connect ∧ ∀ n, e ≠ SocketProvider.Reconnect n) later →
  let p := SocketProvider.page (run (events ++ SocketProvider.Disconnect reason :: later) mounted) in
  Web.emit event data p
  = Web.mkPage (Web.context p) (Web.emitted p) (Web.warnings p ++ ["Socket not connected"]).
Proof.
  intros Hlater p.
  assert (Hflag : Web.isConnected (Web.context p) = false).
  { subst p. induction later as [|e later IH] using rev_ind.
    - rewrite run_snoc. reflexivity.
    - apply Forall_app in Hlater as [Hlater He]. apply Forall_inv in He as [Hc Hr].
      rewrite run_cons_snoc. specialize (IH Hlater).
      destruct e; simpl; try exact IH; try reflexivity; [contradiction|].
      exfalso. eapply Hr. reflexivity. }
  unfold Web.emit. rewrite Hflag. destruct (Web.socket (Web.context p)); reflexivity.
Qed.

(** X20: after a [connect] or a [reconnect], and until a [disconnect]
    arrives, [emit] forwards the event and its data to the socket
    instance of the provider, and writes no warning. *)
Theorem emit_forwards_after_connect (events later : list SocketProvider.SocketEvent)
    (first : SocketProvider.SocketEvent) (event : string) (data : Payload) :
  (first = SocketProvider.Connect ∨ ∃ n, first = SocketProvider.Reconnect n) →
  Forall (λ e, ∀ reason, e ≠ SocketProvider.Disconnect reason) later →
  let p := SocketProvider.page (run (events ++ first :: later) mounted) in
  Web.emit event data p
  = Web.mkPage (Web.context p) (Web.emitted p ++ [(socketInstance, event, data)])
               (Web.warnings p).
Proof.
  intros Hfirst Hlater p.
  assert (Hflag : Web.isConnected (Web.context p) = true).
  { subst p. induction later as [|e later IH] using rev_ind.
    - rewrite run_snoc. destruct Hfirst as [->|[n ->]]; reflexivity.
    - apply Forall_app in Hlater as [Hlater He]. apply Forall_inv in He.
      rewrite run_cons_snoc. specialize (IH Hlater).
      destruct e; simpl; try exact IH; try reflexivity.
      exfalso. eapply He. reflexivity. }
  unfold Web.emit. subst p. rewrite run_keeps_socket, Hflag. reflexivity.
Qed.

(** X21: the counter of reconnection attempts is the number of
    [connect_error] events since the last [connect]; a [reconnect] does
    not reset it. *)
Theorem reconnectAttempts_counts_errors (events later : list SocketProvider.SocketEvent) :
  Forall (λ e, e ≠ SocketProvider.Connect) later →
  Web.reconnectAttempts
    (Web.context (SocketProvider.page (run (events ++ SocketProvider.Connect :: later) mounted)))
  = length (List.filter (λ e, match e with
                              | SocketProvider.ConnectError _ => true
                              | _ => false
                              end) later).
Proof.
  intros Hlater. induction later as [|e later IH] using rev_ind.
  - rewrite run_snoc. reflexivity.
  - apply Forall_app in Hlater as [Hlater He]. apply Forall_inv in He.
    rewrite run_cons_snoc, List.filter_app, length_app. specialize (IH Hlater).
    destruct e; simpl; rewrite ?IH; try lia. contradiction.
Qed.

(** X22: whatever events arrive, the provider itself emits one
    [authenticate] with the user's id for each [connect] and nothing
    else, writes no warning, and calls [connect()] once for each
    disconnection by the server. *)
Theorem provider_authenticates_on_connect (events : list SocketProvider.SocketEvent) :
  let p := run events mounted in
  Web.emitted (SocketProvider.page p)
  = map (λ _, (socketInstance, "authenticate", authentication))
        (List.filter (λ e, match e with SocketProvider.Connect => true | _ => false end) events)
  ∧ Web.warnings (SocketProvider.page p) = []
  ∧ SocketProvider.connectCalls p
    = length (List.filter (λ e, match e with
                                | SocketProvider.Disconnect reason =>
                                    bool_decide (reason = "io server disconnect")
                                | _ => false
                                end) events).
Proof.
  induction events as [|e events IH] using rev_ind; [repeat split|].
  cbv zeta in *. destruct IH as (Hemit & Hwarn & Hcalls).
  rewrite run_snoc, !List.filter_app, map_app, length_app.
  destruct e; simpl; rewrite ?app_nil_r, ?Nat.add_0_r;
    try (split; [exact Hemit|split; [exact Hwarn|exact Hcalls]]).
  - split; [rewrite Hemit; reflexivity|split; [exact Hwarn|lia]].
  - split; [exact Hemit|split; [exact Hwarn|]].
    case_bool_decide; simpl; lia.
Qed.

End ProviderFacts.

(** ** The further properties on sample inputs *)

Section Examples.
Import Js Effects.
Local Open Scope Z_scope.

(** A winner event with its amount is sent to the chat asked for. *)
Lemma sendGameNotification_one_message_witness :
  ∃ rest,
    trace (BotPart000.sendGameNotification 42 "g1" "winner" ownWin (emptyBackend (Num := Z))).2
    = (trace (emptyBackend (Num := Z)) ++ rest)%list
    ∧ recipients rest = [42%Z].
Proof.
  destruct (sendGameNotification_one_message (Num := Z) 42 "g1" "winner" ownWin (emptyBackend (Num := Z)))
    as (rest & Htrace & _ & _ & _ & _ & Hprint & _).
  exists rest. split; [exact Htrace|]. apply Hprint. reflexivity.
Defined.

(** The win of the user of chat 42, announced in chat 77. *)
Lemma winner_elsewhere_not_congratulated_witness :
  ∃ rest,
    trace (BotPart000.sendGameNotification 77 "g1" "winner" ownWin (emptyBackend (Num := Z))).2
    = (trace (emptyBackend (Num := Z)) ++ rest)%list
    ∧ sentBodies rest = [BotPart000.opponentWonText (Some "abebe") 50%Z]
    ∧ ∀ a : Z, ¬ In (BotPart000.youWonText a) (sentBodies rest).
Proof.
  apply (winner_elsewhere_not_congratulated (Num := Z) 42 77 "g1" ownWin 50 (emptyBackend (Num := Z)));
    [lia|reflexivity|reflexivity].
Defined.

(** The start of a game without a game id, in the second variant. *)
Lemma sendGameNotification_second_one_message_witness :
  ∃ rest,
    trace (TelegramBot.sendGameNotification 42
             (TelegramBot.mkNotification "game_starting" None None None false None None None
                                         None)
             (emptyBackend (Num := Z))).2
    = (trace (emptyBackend (Num := Z)) ++ rest)%list
    ∧ rest = [LoggerError "Notification error:"].
Proof.
  destruct (sendGameNotification_second_one_message (Num := Z) 42
              (TelegramBot.mkNotification "game_starting" None None None false None None None
                                          None)
              (emptyBackend (Num := Z)))
    as (rest & Htrace & _ & _ & _ & Hstart).
  exists rest. split; [exact Htrace|]. apply Hstart; reflexivity.
Defined.

(** The players are all notified although every sending fails. *)
Lemma broadcast_reaches_every_player_witness :
  ∃ rest,
    trace (BotViews.broadcastGameUpdate "http://localhost:5000" (λ _, Some samplePlayers)
             "g1" "winner" ownWin failingAfterFirst).2
    = (trace failingAfterFirst
       ++ HttpGet ("http://localhost:5000" +:+ "/api/games/" +:+ "g1" +:+ "/players")
       :: rest)%list
    ∧ recipients rest = [42%Z; 77%Z].
Proof.
  destruct (proj1 (proj2 (broadcast_reaches_every_player (Num := Z) "http://localhost:5000"
                            (λ _, Some samplePlayers) "g1" "winner" ownWin
                            failingAfterFirst))
              (noGame (Num := Z)) samplePlayers eq_refl eq_refl)
    as (rest & Htrace & _ & Hprint).
  exists rest. split; [exact Htrace|]. apply Hprint. reflexivity.
Defined.

(** Two rounds without a game use up a fuel of two. *)
Lemma handlePlayCommand_runs_on_iff_witness :
  (BotPart000.handlePlayCommand "http://localhost:5000" 2 42 gameFromThirdRound).1
  = OutOfFuel.
Proof.
  apply (proj2 (handlePlayCommand_runs_on_iff (Num := Z) "http://localhost:5000" 42 2
                  gameFromThirdRound)).
  intros k Hk. destruct k as [|[|k]]; [| |lia];
    (split; [eexists; split; reflexivity|split; discriminate]).
Defined.

(** Against a backend that answers every call, [buyCard] returns. *)
Lemma buyCard_posts_once_witness :
  (BotPart000.buyCard "http://localhost:5000" 42 (Some "g1") (JsInt 7)
     (emptyBackend (Num := Z))).1 = Done ().
Proof.
  apply (proj1 (proj2 (proj2 (proj2
           (buyCard_posts_once (Num := Z) "http://localhost:5000" 42 (Some "g1") (JsInt 7)
              (emptyBackend (Num := Z))))))).
  intros k _. discriminate.
Defined.

(** The purchase of a card that cannot be printed. *)
Lemma buyCard_unprintable_card_reported_failed_witness :
  trace (BotPart000.buyCard "http://localhost:5000" 42 (Some "g1") (JsInt 7)
           brokenPurchase).2
  = (trace brokenPurchase
     ++ [HttpPostBuyCard ("http://localhost:5000" +:+ "/api/games/" +:+ "g1" +:+ "/buy-card")
           (BotPart000.buyCardBody 42 (JsInt 7));
         ConsoleError "Buy card error:";
         SendMessage (mkMessage 42 "❌ Error purchasing card. Please check your balance."
                                None None)])%list.
Proof.
  apply (buyCard_unprintable_card_reported_failed (Num := Z) "http://localhost:5000" 42
           (Some "g1") (JsInt 7) brokenPurchase
           (mkResponse None true (Some brokenCard) (Some 90%Z) None) eq_refl eq_refl).
  right. exists brokenCard. split; reflexivity.
Defined.

(** A press on View Game. *)
Lemma join_game_press_reports_error_witness :
  BotPart000.onCallbackQuery "http://localhost:5000" idleMethods
    (BotPart000.mkCallbackQuery "q1" (Some 42%Z) (Some ("join_game_" +:+ "g1"))) (emptyBackend (Num := Z))
  = (Done (),
     mkWorld (replies (emptyBackend (Num := Z))) 2
             (trace (emptyBackend (Num := Z)) ++ BotViews.callbackReport "q1" 42)).
Proof.
  apply (join_game_press_reports_error "http://localhost:5000" idleMethods "q1" 42 "g1"
           (emptyBackend (Num := Z)) (noGame (Num := Z)) (noGame (Num := Z)) eq_refl eq_refl).
Defined.

(** The button of 25 dollars of the deposit keyboard. *)
Lemma deposit_buttons_routed_witness :
  ∃ data, action (mkButton "$25" (CallbackData "deposit_25")) = CallbackData data
          ∧ ((∃ amount, data = "deposit_" +:+ amount
                        ∧ BotPart000.dispatch "http://localhost:5000" idleMethods 42 data
                          = BotPart000.processDeposit idleMethods 42 amount)
             ∨ (data = "view_balance"
                ∧ BotPart000.dispatch "http://localhost:5000" idleMethods 42 data
                  = BotPart000.showBalance idleMethods 42)
             ∨ (data = "main_menu"
                ∧ BotPart000.dispatch "http://localhost:5000" idleMethods 42 data
                  = BotPart000.showMainMenu idleMethods 42)).
Proof.
  apply (proj2 (deposit_buttons_routed "http://localhost:5000" idleMethods 42)).
  simpl. right. left. reflexivity.
Defined.

(** A press on the page indicator, whose data is [noop]. *)
Lemma unmatched_callback_only_answered_witness :
  BotPart000.onCallbackQuery "http://localhost:5000" idleMethods
    (BotPart000.mkCallbackQuery "q1" (Some 42%Z) (Some "noop")) (emptyBackend (Num := Z))
  = (Done (),
     mkWorld (replies (emptyBackend (Num := Z))) 1
             (trace (emptyBackend (Num := Z)) ++ [AnswerCallbackQuery "q1"])).
Proof.
  apply (unmatched_callback_only_answered "http://localhost:5000" idleMethods "q1" 42 "noop"
           (emptyBackend (Num := Z)) (noGame (Num := Z)));
    first [reflexivity|discriminate].
Defined.

(** A callback query without a message. *)
Lemma callback_without_message_or_data_witness :
  BotPart000.onCallbackQuery "http://localhost:5000" idleMethods
    (BotPart000.mkCallbackQuery "q1" None (Some "main_menu")) (emptyBackend (Num := Z))
  = (Thrown TypeError, (emptyBackend (Num := Z))).
Proof.
  apply (proj1 (callback_without_message_or_data "http://localhost:5000" idleMethods
                  (BotPart000.mkCallbackQuery "q1" None (Some "main_menu")) (emptyBackend (Num := Z)))).
  reflexivity.
Defined.

(** The button of page 3 of the game [g1]. *)
Lemma page_button_round_trip_witness :
  BotPart000.dispatch "http://localhost:5000" idleMethods 42
    (BotViews.pageData (Some "g1") 3)
  = BotPart000.showCardSelection idleMethods 42 (Some "g1") (JsInt 3).
Proof.
  apply (page_button_round_trip "http://localhost:5000" idleMethods 42 "g1" 3).
  reflexivity.
Defined.

(** Page 2 of 3 has a button back to page 1. *)
Lemma navButtons_within_bounds_witness :
  In (CallbackData (BotViews.pageData (Some "g1") 1))
     (map action (BotViews.navButtons (Some "g1") (Some 2%Z) 3)).
Proof.
  apply (proj1 (proj2 (navButtons_within_bounds (Some "g1") 2 3 ltac:(lia)))). lia.
Defined.

(** The sample card is printed alike before and after its middle row
    was called. *)
Lemma formatCardAsText_ignores_marks_witness :
  formatCardAsText sampleCard = formatCardAsText sampleCardMiddleRow.
Proof.
  apply (formatCardAsText_ignores_marks sampleCard sampleCardMiddleRow).
  intros row col Hrow Hcol.
  do 5 (destruct row as [|row];
        [do 5 (destruct col as [|col]; [vm_compute; auto|]); lia|]).
  lia.
Defined.

(** The middle row of the sample card, with its FREE cell. *)
Lemma formatRow_width_witness :
  ∃ text, formatRow sampleCard 2 = Some text ∧ String.length text = 29%nat.
Proof.
  destruct (formatRow sampleCard 2) as [text|] eqn:Htext; [|vm_compute in Htext; discriminate].
  exists text. split; [reflexivity|].
  apply (formatRow_width sampleCard 2 text ltac:(lia) Htext).
  intros col cell Hcol Hget Hfree.
  do 5 (destruct col as [|col];
        [vm_compute in Hget; apply (inj Some) in Hget; subst cell;
         first [discriminate Hfree
               |split; [reflexivity|eexists; split; [reflexivity|lia]]]|]).
  lia.
Defined.

(** A disconnection followed by a connection error. *)
Lemma emit_silent_after_disconnect_witness :
  let p := SocketProvider.page
             (SocketProvider.run 1%nat 42%Z
                ([SocketProvider.Connect]
                 ++ SocketProvider.Disconnect "transport close"
                 :: [SocketProvider.ConnectError "timeout"])
                (SocketProvider.mounted 1%nat)) in
  Web.emit "markNumber" 7%Z p
  = Web.mkPage (Web.context p) (Web.emitted p) (Web.warnings p ++ ["Socket not connected"]).
Proof.
  apply (emit_silent_after_disconnect 1%nat 42%Z [SocketProvider.Connect]
           [SocketProvider.ConnectError "timeout"] "transport close" "markNumber" 7%Z).
  constructor; [split; [discriminate|intros n; discriminate]|constructor].
Defined.

(** A connection followed by an update of the game state. *)
Lemma emit_forwards_after_connect_witness :
  let p := SocketProvider.page
             (SocketProvider.run 1%nat 42%Z
                ([] ++ SocketProvider.Connect :: [SocketProvider.GameStateUpdate])
                (SocketProvider.mounted 1%nat)) in
  Web.emit "markNumber" 7%Z p
  = Web.mkPage (Web.context p) (Web.emitted p ++ [(1%nat, "markNumber", 7%Z)])
               (Web.warnings p).
Proof.
  apply (emit_forwards_after_connect 1%nat 42%Z [] [SocketProvider.GameStateUpdate]
           SocketProvider.Connect "markNumber" 7%Z).
  - left. reflexivity.
  - constructor; [intros reason; discriminate|constructor].
Defined.

(** Two connection errors around a reconnection. *)
Lemma reconnectAttempts_counts_errors_witness :
  Web.reconnectAttempts
    (Web.context
       (SocketProvider.page
          (SocketProvider.run 1%nat 42%Z
             ([] ++ SocketProvider.Connect
              :: [SocketProvider.ConnectError "timeout"; SocketProvider.Reconnect 1;
                  SocketProvider.ConnectError "timeout"])
             (SocketProvider.mounted 1%nat))))
  = 2%nat.
Proof.
  apply (reconnectAttempts_counts_errors 1%nat 42%Z []
           [SocketProvider.ConnectError "timeout"; SocketProvider.Reconnect 1;
            SocketProvider.ConnectError "timeout"]).
  repeat (constructor; [discriminate|]). constructor.
Defined.

End Examples.
